(** * EmailBroadcaster: a shallow embedding of [email_broadcaster.py]

    The development follows the Python class [EmailBroadcaster]:
    the recipient loader, the single-send operation, the broadcast loop
    and the summary reporter.  Python objects are modelled as follows.

    - a [str] is a [string]; one [ascii] stands for one code point below 256;
    - a cell of a pandas frame is a [pyval] (text, missing value, integer
      or boolean);
    - a parsed JSON document is a [json] value, Python's [None] being [JNull];
    - a function that may raise returns a sum [exn + A]; a method that also
      mutates the broadcaster or talks to the outside world is a function
      [State -> outcome A], which keeps the state reached when an exception
      leaves the method;
    - a delay in seconds is a [Q], the rational a finite [float] stands
      for; [inf] and [nan] are outside the model;
    - the outside world ([pd.read_csv], [requests.post], [datetime.now])
      is an explicit oracle; what the program does to it ([requests.post],
      [time.sleep], the printed summary) is recorded in a trace.

    Process signals ([KeyboardInterrupt] and the like, which are not
    subclasses of [Exception]) and the progress lines written with [print]
    are outside the model. *)

From Stdlib Require Import String Ascii List ZArith QArith Bool Lia.
Import ListNotations.

#[local] Set Warnings "-register-all".

Local Open Scope string_scope.
Local Open Scope list_scope.
Local Open Scope Z_scope.

(** ** Python strings *)

Module PyStr.

(** [s.startswith(t)] *)
Fixpoint starts_with (t s : string) : bool :=
  match t with
  | EmptyString => true
  | String a t' =>
      match s with
      | EmptyString => false
      | String b s' => Ascii.eqb a b && starts_with t' s'
      end
  end.

(** [t in s]: some occurrence of [t] in [s]. *)
Fixpoint occurs (t s : string) : bool :=
  starts_with t s ||
  match s with
  | EmptyString => false
  | String _ s' => occurs t s'
  end.

(** The scan of [str.replace] for a non-empty [old]: [skip] counts the
    characters of a matched occurrence that are still to be passed over. *)
Fixpoint replace_scan (skip : nat) (old new s : string) : string :=
  match s with
  | EmptyString => EmptyString
  | String c s' =>
      match skip with
      | S k => replace_scan k old new s'
      | O =>
          if starts_with old s
          then new ++ replace_scan (String.length old - 1) old new s'
          else String c (replace_scan 0 old new s')
      end
  end.

(** With an empty [old], [str.replace] puts [new] before every character
    and at the end. *)
Fixpoint interleave (new s : string) : string :=
  match s with
  | EmptyString => new
  | String c s' => new ++ String c (interleave new s')
  end.

(** [s.replace(old, new)]: every non-overlapping occurrence, left to right. *)
Definition replace (s old new : string) : string :=
  match old with
  | EmptyString => interleave new s
  | String _ _ => replace_scan 0 old new s
  end.

(** [sep.join(parts)] *)
Fixpoint join (sep : string) (parts : list string) : string :=
  match parts with
  | [] => EmptyString
  | [p] => p
  | p :: ps => p ++ sep ++ join sep ps
  end.

(** Truth value of a [str]. *)
Definition truthy (s : string) : bool :=
  match s with EmptyString => false | String _ _ => true end.

End PyStr.

(** ** The regular expression of the loader *)

Module Re.

(** Elements of a pattern, as far as the loader's pattern needs them. *)
Inductive item :=
| Lit (c : ascii)                   (* one literal character, as [@] or [\.] *)
| PlusClass (cls : ascii -> bool)   (* [[...]+]: one or more of a class *)
| Dollar.                           (* [$] *)

(** [\s] on a [str] pattern: the code points below 256 for which
    [str.isspace] holds. *)
Definition is_space (c : ascii) : bool :=
  let n := nat_of_ascii c in
  ((9 <=? n) && (n <=? 13) || (28 <=? n) && (n <=? 32)
   || (n =? 133) || (n =? 160))%nat.

(** [$] without [re.MULTILINE]: the end of the string, or just before a
    newline that ends the string. *)
Definition at_dollar (s : string) : bool :=
  match s with
  | EmptyString => true
  | String c EmptyString => Ascii.eqb c "010"
  | _ => false
  end.

(** [re.match]: the pattern matches at the start of [s]; it need not reach
    the end.  Backtracking over [+] is the choice between going on and
    handing over to the rest of the pattern. *)
Fixpoint matches (p : list item) (s : string) {struct p} : bool :=
  match p with
  | [] => true
  | Lit c :: p' =>
      match s with
      | String a s' => Ascii.eqb a c && matches p' s'
      | EmptyString => false
      end
  | Dollar :: p' => at_dollar s && matches p' s
  | PlusClass cls :: p' =>
      (fix plus (s : string) : bool :=
         match s with
         | String a s' => cls a && (plus s' || matches p' s')
         | EmptyString => false
         end) s
  end.

End Re.

(** [[^\s@]] *)
Definition not_space_at (c : ascii) : bool :=
  negb (Re.is_space c) && negb (Ascii.eqb c "@").

(** [r'^[^\s@]+@[^\s@]+\.[^\s@]+$'] ([^] is implied by [re.match]). *)
Definition email_pattern : list Re.item :=
  [Re.PlusClass not_space_at; Re.Lit "@"; Re.PlusClass not_space_at;
   Re.Lit "."; Re.PlusClass not_space_at; Re.Dollar].

Definition email_valid (s : string) : bool := Re.matches email_pattern s.

(** ** Python values and exceptions *)

(** A cell of a frame read by pandas: text, a missing value ([NaN], a
    [float]), an integer, or a boolean (the validity mask of the loader). *)
Inductive pyval :=
| PStr (s : string)
| PNaN
| PInt (z : Z)
| PBool (b : bool).

Definition py_type (v : pyval) : string :=
  match v with
  | PStr _ => "str"
  | PNaN => "float"
  | PInt _ => "int"
  | PBool _ => "bool"
  end.

(** The exception classes the program meets.  Every one is a subclass of
    [Exception]; [PlainException] is the class [Exception] itself,
    [RequestException] stands for [requests.exceptions.RequestException] and
    its subclasses (time-outs, connection errors), [OSError] for that
    class itself (its subclass [FileNotFoundError] is listed apart),
    [OtherError] for any class not listed. *)
Inductive exc_class :=
| PlainException
| FileNotFoundError
| ValueError
| TypeError
| AttributeError
| KeyError
| ZeroDivisionError
| RequestException
| OverflowError
| OSError
| OtherError.

Record exn := mkExn { exc_kind : exc_class; exc_str : string }.

Definition is_file_not_found (e : exn) : bool :=
  match exc_kind e with FileNotFoundError => true | _ => false end.

Definition is_request_exception (e : exn) : bool :=
  match exc_kind e with RequestException => true | _ => false end.

(** [s.replace(old, new)] where [new] is any object: a [TypeError] unless it
    is a [str]. *)
Definition py_replace (s old : string) (new : pyval) : exn + string :=
  match new with
  | PStr n => inr (PyStr.replace s old n)
  | _ => inl (mkExn TypeError
                ("replace() argument 2 must be str, not " ++ py_type new))
  end.

(** [a % b] on [int]: the sign of the divisor, as [Z.modulo].  (The text of
    the error differs between versions of Python.) *)
Definition py_mod (a b : Z) : exn + Z :=
  if b =? 0
  then inl (mkExn ZeroDivisionError "integer division or modulo by zero")
  else inr (a mod b).

(** ** JSON documents *)

Inductive json :=
| JNull
| JBool (b : bool)
| JNum (z : Z)
| JStr (s : string)
| JArr (l : list json)
| JObj (m : list (string * json)).

Fixpoint lookup {A : Type} (k : string) (m : list (string * A)) : option A :=
  match m with
  | [] => None
  | (k', v) :: m' => if String.eqb k k' then Some v else lookup k m'
  end.

Definition json_type (v : json) : string :=
  match v with
  | JNull => "NoneType"
  | JBool _ => "bool"
  | JNum _ => "int"
  | JStr _ => "str"
  | JArr _ => "list"
  | JObj _ => "dict"
  end.

(** Truth value of the object a JSON document parses to. *)
Definition json_truthy (v : json) : bool :=
  match v with
  | JNull => false
  | JBool b => b
  | JNum z => negb (z =? 0)
  | JStr s => PyStr.truthy s
  | JArr l => match l with [] => false | _ => true end
  | JObj m => match m with [] => false | _ => true end
  end.

(** [v.get(key, default)]: only a [dict] has the method. *)
Definition json_get (v : json) (key : string) (default : json) : exn + json :=
  match v with
  | JObj m =>
      inr (match lookup key m with Some x => x | None => default end)
  | _ =>
      inl (mkExn AttributeError
             ("'" ++ json_type v ++ "' object has no attribute 'get'"))
  end.

(** ** Frames *)

(** A row as [iterrows] yields it: column name to cell. *)
Definition Series := list (string * pyval).

(** A [pd.DataFrame]: the column index and the rows, each under its index
    label.  [pd.read_csv] labels the rows 0, 1, 2, ...; a selection of rows
    keeps the labels of the rows it keeps. *)
Record DataFrame := mkDataFrame {
  columns : list string;
  rows : list (Z * Series)
}.

Definition len (df : DataFrame) : Z := Z.of_nat (List.length (rows df)).

(** [row[col]] *)
Definition getitem (row : Series) (col : string) : exn + pyval :=
  match lookup col row with
  | Some v => inr v
  | None => inl (mkExn KeyError ("'" ++ col ++ "'"))
  end.

(** [col in df.columns] *)
Definition has_column (df : DataFrame) (col : string) : bool :=
  existsb (String.eqb col) (columns df).

(** The cell of a row in a column; a hole counts as missing. *)
Definition cell (col : string) (row : Z * Series) : pyval :=
  match lookup col (snd row) with Some v => v | None => PNaN end.

Definition is_nan (v : pyval) : bool :=
  match v with PNaN => true | _ => false end.

Definition is_text (v : pyval) : bool :=
  match v with PStr _ => true | _ => false end.

(** [df.dropna(subset=[col])] *)
Definition dropna (df : DataFrame) (col : string) : DataFrame :=
  mkDataFrame (columns df)
    (filter (fun r => negb (is_nan (cell col r))) (rows df)).

Fixpoint set_cell (col : string) (v : pyval) (row : Series) : Series :=
  match row with
  | [] => [(col, v)]
  | (c, x) :: row' =>
      if String.eqb c col then (c, v) :: row' else (c, x) :: set_cell col v row'
  end.

(** [df[col] = values], the values given row by row. *)
Definition set_column (df : DataFrame) (col : string)
    (f : Z * Series -> pyval) : DataFrame :=
  mkDataFrame
    (if has_column df col then columns df else columns df ++ [col])
    (map (fun r => (fst r, set_cell col (f r) (snd r))) (rows df)).

(** [df.drop(col, axis=1)] *)
Definition drop_column (df : DataFrame) (col : string) : DataFrame :=
  mkDataFrame
    (filter (fun c => negb (String.eqb c col)) (columns df))
    (map (fun r =>
            (fst r, filter (fun kv => negb (String.eqb (fst kv) col)) (snd r)))
         (rows df)).

(** [df[mask]] for the boolean column [col] (negated for [df[~mask]]). *)
Definition select (df : DataFrame) (col : string) (want : bool) : DataFrame :=
  mkDataFrame (columns df)
    (filter (fun r => match cell col r with
                      | PBool b => Bool.eqb b want
                      | _ => false
                      end) (rows df)).

(** ** The broadcaster, the outside world, and methods *)

Inductive send_status := success | failed.

(** The dictionary [send_single_email] returns.  ['message'] holds whatever
    object the code puts there (text in a [JStr]); only a success carries
    the key ['message_id']. *)
Record SendResult := mkSendResult {
  status : send_status;
  email : pyval;
  name : pyval;
  message : json;
  message_id : option json;
  timestamp : string
}.

(** The JSON body of the outbound call, key by key in insertion order. *)
Definition Payload := list (string * pyval).

(** What [requests.post] hands back: the status code and what
    [response.json()] does (the parsed body, or the exception it raises). *)
Record Response := mkResponse {
  status_code : Z;
  response_json : exn + json
}.

(** The summary the reporter prints.  The success rate is kept as a
    rational number rather than a [float] rounded to two digits. *)
Record Summary := mkSummary {
  total_email : Z;
  berhasil : Z;
  gagal : Z;
  success_rate : Q
}.

Inductive event :=
| EvPost (url : string) (payload : Payload)   (* [requests.post] was called *)
| EvSleep (seconds : Q)                       (* [time.sleep] returned *)
| EvSummary (s : Summary).                    (* the summary was printed *)

(** The outside world: the answer to the [k]-th outbound call (counting
    from 0), and the clock read after it. *)
Record Env := mkEnv {
  post : nat -> string -> Payload -> exn + Response;
  now : nat -> string
}.

(** The instance attributes of [EmailBroadcaster]. *)
Record EmailBroadcaster := mkBroadcaster {
  api_url : string;
  api_key : string;
  sent_count : Z;
  failed_count : Z;
  results : list SendResult
}.

Record State := mkState {
  self : EmailBroadcaster;
  posted : nat;            (* outbound calls made so far *)
  trace : list event       (* oldest first *)
}.

(** [EmailBroadcaster.__init__] *)
Definition init (url key : string) : EmailBroadcaster :=
  mkBroadcaster url key 0 0 [].

Definition boot (b : EmailBroadcaster) : State := mkState b 0 [].

Inductive outcome (A : Type) :=
| Returned (a : A) (s : State)
| Raised (e : exn) (s : State).
Arguments Returned {A} a s.
Arguments Raised {A} e s.

Definition M (A : Type) := State -> outcome A.

Definition ret {A} (a : A) : M A := fun s => Returned a s.
Definition raise {A} (e : exn) : M A := fun s => Raised e s.
Definition bind {A B} (m : M A) (k : A -> M B) : M B :=
  fun s => match m s with
           | Returned a s' => k a s'
           | Raised e s' => Raised e s'
           end.
Definition lift {A} (r : exn + A) : M A :=
  match r with inl e => raise e | inr a => ret a end.

(** [try: body except Exception as e: handler(e)] *)
Definition try_except {A} (body : M A) (handler : exn -> M A) : M A :=
  fun s => match body s with
           | Returned a s' => Returned a s'
           | Raised e s' => handler e s'
           end.

Declare Scope py_scope.
Delimit Scope py_scope with py.
Notation "x <- m ;; k" := (bind m (fun x => k))
  (at level 61, m at next level, right associativity) : py_scope.
Notation "m ;;; k" := (bind m (fun _ => k))
  (at level 61, right associativity) : py_scope.
Local Open Scope py_scope.

Definition final_state {A} (o : outcome A) : State :=
  match o with Returned _ s => s | Raised _ s => s end.

Definition update_self (f : EmailBroadcaster -> EmailBroadcaster) : M unit :=
  fun s => Returned tt (mkState (f (self s)) (posted s) (trace s)).

Definition emit (e : event) : M unit :=
  fun s => Returned tt (mkState (self s) (posted s) (trace s ++ [e])).

Definition get_self : M EmailBroadcaster := fun s => Returned (self s) s.

(** [self.sent_count += 1] *)
Definition incr_sent : M unit :=
  update_self (fun b => mkBroadcaster (api_url b) (api_key b)
                          (sent_count b + 1) (failed_count b) (results b)).

(** [self.failed_count += 1] *)
Definition incr_failed : M unit :=
  update_self (fun b => mkBroadcaster (api_url b) (api_key b)
                          (sent_count b) (failed_count b + 1) (results b)).

(** [self.results = rs] *)
Definition set_results (rs : list SendResult) : M unit :=
  update_self (fun b => mkBroadcaster (api_url b) (api_key b)
                          (sent_count b) (failed_count b) rs).

(** [self.results.append(r)] *)
Definition append_result (r : SendResult) : M unit :=
  update_self (fun b => mkBroadcaster (api_url b) (api_key b)
                          (sent_count b) (failed_count b) (results b ++ [r])).

(** [requests.post(url, json=payload, ...)] *)
Definition requests_post (env : Env) (url : string) (payload : Payload)
    : M Response :=
  fun s =>
    let s' := mkState (self s) (S (posted s))
                (trace s ++ [EvPost url payload]) in
    match post env (posted s) url payload with
    | inl e => Raised e s'
    | inr r => Returned r s'
    end.

(** [datetime.now().isoformat()] *)
Definition datetime_now (env : Env) : M string :=
  fun s => Returned (now env (posted s)) s.

(** [time.sleep(seconds)] for a finite [float], taken as the rational it
    stands for; [inf] and [nan], for which [time.sleep] raises as well, are
    no rationals and stay outside the model.  The model follows CPython 3.11
    on Linux.

    The length is first turned into a signed 64-bit count of nanoseconds:
    the product with [1e9] is rounded to the nearest [float], and the call
    raises [OverflowError] unless that [float] lies between [-2^63] and
    [2^63], both included.  The neighbours of [2^63] among the floats are
    [2^63 - 1024] and [2^63 + 2048], and ties go to [2^63], whose last bit
    is even; likewise for [-2^63].  So a product above [2^63 + 1024] or
    under [-2^63 - 1024] is an [OverflowError], and a product from
    [2^63 - 512] on is rounded to [2^63], which the conversion wraps to the
    negative count [-2^63].

    A negative count is a [ValueError].

    The call then waits until the monotonic clock reads its present value
    plus the count.  That sum has to stay under [2^63] as well, or the
    system refuses it and the call raises [OSError].  What the clock reads
    is not part of the model: it is taken to be under [2^62] nanoseconds
    (146 years), and every count from [2^62] on is taken to be refused, so
    that a length the model sleeps through is one the program sleeps
    through. *)
Definition nanoseconds (seconds : Q) : Q :=
  (seconds * inject_Z (10 ^ 9)%Z)%Q.

Definition Qlt_bool (x y : Q) : bool := negb (Qle_bool y x).

Definition time_sleep (seconds : Q) : M unit :=
  let ns := nanoseconds seconds in
  if Qlt_bool ns (inject_Z (- 2 ^ 63 - 1024)%Z)
     || Qlt_bool (inject_Z (2 ^ 63 + 1024)%Z) ns
  then raise (mkExn OverflowError
                "timestamp too large to convert to C _PyTime_t")
  else if Qlt_bool ns 0 || Qle_bool (inject_Z (2 ^ 63 - 512)%Z) ns
  then raise (mkExn ValueError "sleep length must be non-negative")
  else if Qle_bool (inject_Z (2 ^ 62)%Z) ns
  then raise (mkExn OSError "[Errno 22] Invalid argument")
  else emit (EvSleep seconds).

(** The lengths the model sleeps through: from 0 to under [2^62]
    nanoseconds, some 4.6e9 seconds. *)
Definition sleep_returns (seconds : Q) : bool :=
  Qle_bool 0 (nanoseconds seconds)
  && Qlt_bool (nanoseconds seconds) (inject_Z (2 ^ 62)%Z).

(** ** [send_single_email] *)

(** An optional key of the payload: present only for a true value. *)
Definition optional_field (key : string) (o : option string) : Payload :=
  match o with
  | Some s => if PyStr.truthy s then [(key, PStr s)] else []
  | None => []
  end.

(** The personalised HTML body: [None] unless [html_body] is true. *)
Definition personalize_html (html_body : option string) (to_name : pyval)
    : exn + option string :=
  match html_body with
  | Some h =>
      if PyStr.truthy h
      then match py_replace h "{nama}" to_name with
           | inl e => inl e
           | inr h' => inr (Some h')
           end
      else inr None
  | None => inr None
  end.

(** The statements before the [try]: personalisation and the payload. *)
Definition build_payload (key : string) (to_email to_name : pyval)
    (subject body : string) (html_body : option string) (from_name : string)
    (cc bcc : option string) : exn + Payload :=
  match py_replace body "{nama}" to_name with
  | inl e => inl e
  | inr personalized_body =>
  match py_replace subject "{nama}" to_name with
  | inl e => inl e
  | inr personalized_subject =>
  match personalize_html html_body to_name with
  | inl e => inl e
  | inr personalized_html_body =>
      inr ([("endpoint", PStr "send-email");
            ("api_key", PStr key);
            ("to", to_email);
            ("subject", PStr personalized_subject);
            ("body", PStr personalized_body);
            ("from_name", PStr from_name)]
           ++ optional_field "html_body" personalized_html_body
           ++ optional_field "cc" cc
           ++ optional_field "bcc" bcc)
  end end end.

Definition send_single_email (env : Env) (to_email to_name : pyval)
    (subject body : string) (html_body : option string) (from_name : string)
    (cc bcc : option string) : M SendResult :=
  b <- get_self ;;
  payload <- lift (build_payload (api_key b) to_email to_name subject body
                     html_body from_name cc bcc) ;;
  try_except
    (response <- requests_post env (api_url b) payload ;;
     result <- lift (response_json response) ;;
     ok <- (if status_code response =? 200
            then flag <- lift (json_get result "success" JNull) ;;
                 ret (json_truthy flag)
            else ret false) ;;
     if ok : bool
     then
       incr_sent ;;;
       data <- lift (json_get result "data" (JObj [])) ;;
       mid <- lift (json_get data "messageId" JNull) ;;
       ts <- datetime_now env ;;
       ret (mkSendResult success to_email to_name
              (JStr "Email sent successfully") (Some mid) ts)
     else
       incr_failed ;;;
       err <- lift (json_get result "error" (JObj [])) ;;
       msg <- lift (json_get err "message" (JStr "Unknown error")) ;;
       ts <- datetime_now env ;;
       ret (mkSendResult failed to_email to_name msg None ts))
    (fun e =>
       if is_request_exception e
       then (* except requests.exceptions.RequestException as e *)
         incr_failed ;;;
         ts <- datetime_now env ;;
         ret (mkSendResult failed to_email to_name
                (JStr ("Request error: " ++ exc_str e)) None ts)
       else (* except Exception as e *)
         incr_failed ;;;
         ts <- datetime_now env ;;
         ret (mkSendResult failed to_email to_name
                (JStr ("Unexpected error: " ++ exc_str e)) None ts)).

(** ** [_print_summary] *)

(** [self.sent_count / len(self.results) * 100] *)
Definition success_rate_of (sent n : Z) : exn + Q :=
  if n =? 0
  then inl (mkExn ZeroDivisionError "division by zero")
  else inr (inject_Z sent / inject_Z n * inject_Z 100)%Q.

(** The summary is recorded when all of its lines have been printed. *)
Definition _print_summary : M unit :=
  b <- get_self ;;
  let n := Z.of_nat (List.length (results b)) in
  rate <- lift (success_rate_of (sent_count b) n) ;;
  emit (EvSummary (mkSummary n (sent_count b) (failed_count b) rate)).

(** ** [send_bulk_email] *)

(** [for x in l: body(x)] *)
Fixpoint for_each {A : Type} (l : list A) (body : A -> M unit) : M unit :=
  match l with
  | [] => ret tt
  | x :: l' => body x ;;; for_each l' body
  end.

(** The body of the loop for the row [row] under the index label [idx]. *)
Definition bulk_body (env : Env) (total_recipients : Z)
    (subject body : string) (html_body : option string) (from_name : string)
    (delay_seconds : Q) (batch_size : Z) (r : Z * Series) : M unit :=
  let idx := fst r in
  let row := snd r in
  email_ <- lift (getitem row "email") ;;
  nama <- lift (getitem row "nama") ;;
  result <- send_single_email env email_ nama subject body html_body
              from_name None None ;;
  append_result result ;;;
  m <- lift (py_mod (idx + 1) batch_size) ;;
  if (m =? 0) && (idx + 1 <? total_recipients)
  then time_sleep delay_seconds
  else ret tt.

Definition send_bulk_email (env : Env) (recipients_df : DataFrame)
    (subject body : string) (html_body : option string) (from_name : string)
    (delay_seconds : Q) (batch_size : Z) : M (list SendResult) :=
  let total_recipients := len recipients_df in
  set_results [] ;;;
  for_each (rows recipients_df)
    (bulk_body env total_recipients subject body html_body from_name
       delay_seconds batch_size) ;;;
  _print_summary ;;;
  b <- get_self ;;
  ret (results b).

(** ** [load_recipients_from_csv] *)

(** The dtype pandas gives a column it reads: numeric when the column has
    rows and none holds text, [object] otherwise. *)
Definition numeric_dtype (df : DataFrame) (col : string) : bool :=
  match rows df with
  | [] => false
  | _ => forallb (fun r => negb (is_text (cell col r))) (rows df)
  end.

(** [df[col].str.match(pattern)], row by row.  The [.str] accessor is
    refused on a numeric column.  On an [object] column that holds a cell
    which is neither text nor missing pandas fails a little later, in the
    negation of the mask, with another message; the handler of the loader
    wraps both in the same way, so the model raises the first for both. *)
Definition str_match (numeric : bool) (df : DataFrame) (col : string)
    : exn + (Z * Series -> pyval) :=
  if numeric || negb (forallb (fun r => is_text (cell col r)) (rows df))
  then inl (mkExn AttributeError
              "Can only use .str accessor with string values!")
  else inr (fun r => match cell col r with
                     | PStr s => PBool (email_valid s)
                     | _ => PNaN
                     end).

Definition required_columns : list string := ["nama"; "email"].

(** The statements inside the [try] of the loader. *)
Definition load_body (read_csv : string -> exn + DataFrame)
    (file_path : string) : exn + DataFrame :=
  match read_csv file_path with
  | inl e => inl e
  | inr df0 =>
      let missing_columns :=
        filter (fun col => negb (has_column df0 col)) required_columns in
      match missing_columns with
      | _ :: _ =>
          inl (mkExn ValueError
                 ("Kolom yang hilang: " ++ PyStr.join ", " missing_columns))
      | [] =>
          let df := dropna df0 "email" in
          match str_match (numeric_dtype df0 "email") df "email" with
          | inl e => inl e
          | inr mask =>
              let df := set_column df "email_valid" mask in
              let invalid_emails := select df "email_valid" false in
              let df := if 0 <? len invalid_emails
                        then select df "email_valid" true
                        else df in
              inr (drop_column df "email_valid")
          end
      end
  end.

(** The two handlers: [FileNotFoundError] is raised again as such, every
    other exception as a plain [Exception]. *)
Definition load_recipients_from_csv (read_csv : string -> exn + DataFrame)
    (file_path : string) : exn + DataFrame :=
  match load_body read_csv file_path with
  | inr df => inr df
  | inl e =>
      if is_file_not_found e
      then inl (mkExn FileNotFoundError
                  ("File tidak ditemukan: " ++ file_path))
      else inl (mkExn PlainException
                  ("Error membaca file CSV: " ++ exc_str e))
  end.

(** ** Vocabulary of the properties *)

(** The placeholder of the templates. *)
Definition token : string := "{nama}".

(** [c] is not a character of [t]. *)
Fixpoint absent (c : ascii) (t : string) : bool :=
  match t with
  | EmptyString => true
  | String a t' => negb (Ascii.eqb a c) && absent c t'
  end.

(** A piece of text without any occurrence of the placeholder. *)
Definition token_free (p : string) : bool := negb (PyStr.occurs token p).

(** What a trace shows of the pacing: the calls, the pauses, the summary. *)
Inductive kind :=
| KPost
| KSleep (seconds : Q)
| KSummary.

Definition kind_of (e : event) : kind :=
  match e with
  | EvPost _ _ => KPost
  | EvSleep d => KSleep d
  | EvSummary _ => KSummary
  end.

(** The test of the loop after the row labelled [idx]. *)
Definition pause_due (batch_size total : Z) (idx : Z) : bool :=
  ((idx + 1) mod batch_size =? 0) && (idx + 1 <? total).

(** One call per row, and a pause after the rows where the test holds. *)
Definition paced (delay : Q) (batch_size total : Z) (labels : list Z)
    : list kind :=
  flat_map (fun idx => KPost ::
              (if pause_due batch_size total idx then [KSleep delay] else []))
    labels.

(** The positions 1..n after which a pause is due when pauses follow every
    [batch_size]-th recipient by position and only if more remain. *)
Definition pauses_by_position (batch_size : Z) (n : nat) : list nat :=
  filter (fun p => (Z.of_nat p mod batch_size =? 0)
                   && (Z.of_nat p <? Z.of_nat n))
    (seq 1 n).

(** The positions (from 1) of the calls that are followed by a pause in a
    trace; [sent] counts the calls seen so far. *)
Fixpoint pause_positions (sent : nat) (ks : list kind) : list nat :=
  match ks with
  | [] => []
  | KPost :: ks' => pause_positions (S sent) ks'
  | KSleep _ :: ks' => sent :: pause_positions sent ks'
  | KSummary :: ks' => pause_positions sent ks'
  end.

(** A row the loop can send to: it has an email cell and a name that is
    text. *)
Definition recipient_ok (r : Z * Series) : bool :=
  match lookup "email" (snd r), lookup "nama" (snd r) with
  | Some _, Some (PStr _) => true
  | _, _ => false
  end.

(** The recipient a result is about, and the one a row holds. *)
Definition result_recipient (r : SendResult) : pyval * pyval :=
  (email r, name r).
Definition row_recipient (r : Z * Series) : pyval * pyval :=
  (cell "email" r, cell "nama" r).

(** A row whose email cell is text of the shape the loader asks for. *)
Definition row_email_valid (r : Z * Series) : bool :=
  match lookup "email" (snd r) with
  | Some (PStr s) => email_valid s
  | _ => false
  end.

(** A response the code reports as a success: status 200, a JSON object
    with a true [success], and a [data] that is absent or an object. *)
Definition accepted (o : exn + Response) : bool :=
  match o with
  | inr (mkResponse code (inr (JObj m))) =>
      (code =? 200)
      && json_truthy (match lookup "success" m with
                      | Some v => v
                      | None => JNull
                      end)
      && match lookup "data" m with
         | None | Some (JObj _) => true
         | Some _ => false
         end
  | _ => false
  end.

(** The provider's message id in an accepted response. *)
Definition provider_message_id (o : exn + Response) : json :=
  match o with
  | inr (mkResponse _ (inr (JObj m))) =>
      match lookup "data" m with
      | Some (JObj d) =>
          match lookup "messageId" d with Some v => v | None => JNull end
      | _ => JNull
      end
  | _ => JNull
  end.

(** A response the code reads as the provider's refusal: a JSON object,
    with another status than 200 or without a true [success], and an
    [error] that is absent or an object. *)
Definition refused (o : exn + Response) : bool :=
  match o with
  | inr (mkResponse code (inr (JObj m))) =>
      negb ((code =? 200)
            && json_truthy (match lookup "success" m with
                            | Some v => v
                            | None => JNull
                            end))
      && match lookup "error" m with
         | None | Some (JObj _) => true
         | Some _ => false
         end
  | _ => false
  end.

(** The provider's error message in a refusal. *)
Definition provider_error_message (o : exn + Response) : json :=
  match o with
  | inr (mkResponse _ (inr (JObj m))) =>
      match lookup "error" m with
      | Some (JObj e) =>
          match lookup "message" e with
          | Some v => v
          | None => JStr "Unknown error"
          end
      | _ => JStr "Unknown error"
      end
  | _ => JStr "Unknown error"
  end.

(** The exception a transport failure or an unreadable body raises. *)
Definition transport_failure (o : exn + Response) : option exn :=
  match o with
  | inl e => Some e
  | inr (mkResponse _ (inl e)) => Some e
  | _ => None
  end.

(** The text the handlers put in ['message']. *)
Definition handler_message (e : exn) : json :=
  JStr ((if is_request_exception e
         then "Request error: "
         else "Unexpected error: ") ++ exc_str e).

(** ** Scenarios

    Concrete services and tables on which the properties below are
    evaluated. *)

(** A service that accepts every message. *)
Definition service_ok : Env :=
  mkEnv (fun _ _ _ =>
           inr (mkResponse 200
                  (inr (JObj [("success", JBool true);
                              ("data", JObj [("messageId", JStr "msg-1")])]))))
        (fun _ => "2025-01-01T08:00:00").

(** A service that answers 200 and [success: true] with a [data] that is
    [null]. *)
Definition service_null_data : Env :=
  mkEnv (fun _ _ _ =>
           inr (mkResponse 200
                  (inr (JObj [("success", JBool true); ("data", JNull)]))))
        (fun _ => "2025-01-01T08:00:00").

(** A service that rejects the first message with status 429 and an error
    message, and cannot be reached afterwards. *)
Definition service_failing : Env :=
  mkEnv (fun k _ _ =>
           match k with
           | O => inr (mkResponse 429
                         (inr (JObj [("success", JBool false);
                                     ("error",
                                      JObj [("message",
                                             JStr "Rate limit exceeded")])])))
           | _ => inl (mkExn RequestException "Read timed out.")
           end)
        (fun _ => "2025-01-01T08:00:00").

Definition recipient_row (idx : Z) (nama email_ : pyval) : Z * Series :=
  (idx, [("nama", nama); ("email", email_)]).

(** A table with a malformed address, an empty address and a good one. *)
Definition contacts : DataFrame :=
  mkDataFrame ["nama"; "email"]
    [recipient_row 0 (PStr "Budi") (PStr "not-an-email");
     recipient_row 1 (PStr "Citra") PNaN;
     recipient_row 2 (PStr "Alice") (PStr "alice@example.com")].

(** A table whose first row has an empty name. *)
Definition contacts_blank_name : DataFrame :=
  mkDataFrame ["nama"; "email"]
    [recipient_row 0 PNaN (PStr "bob@example.com");
     recipient_row 1 (PStr "Alice") (PStr "alice@example.com")].

(** A table whose first row is dropped by the loader, so that the three
    recipients that remain carry the labels 1, 2 and 3. *)
Definition contacts_first_dropped : DataFrame :=
  mkDataFrame ["nama"; "email"]
    [recipient_row 0 (PStr "Budi") (PStr "not-an-email");
     recipient_row 1 (PStr "Alice") (PStr "alice@example.com");
     recipient_row 2 (PStr "Bob") (PStr "bob@example.com");
     recipient_row 3 (PStr "Citra") (PStr "citra@example.com")].

(** What the loader returns for [contacts_first_dropped]. *)
Definition recipients_1_2_3 : DataFrame :=
  mkDataFrame ["nama"; "email"]
    [recipient_row 1 (PStr "Alice") (PStr "alice@example.com");
     recipient_row 2 (PStr "Bob") (PStr "bob@example.com");
     recipient_row 3 (PStr "Citra") (PStr "citra@example.com")].

(** A frame with a single recipient. *)
Definition one_recipient : DataFrame :=
  mkDataFrame ["nama"; "email"]
    [recipient_row 0 (PStr "Alice") (PStr "alice@example.com")].

(** A fresh broadcaster. *)
Definition fresh : State :=
  boot (init "https://script.google.com/macros/s/x/exec" "key").

(** ** The other methods of the class *)

(** Sequencing of computations that may raise. *)
Definition and_then {A B : Type} (r : exn + A) (k : A -> exn + B) : exn + B :=
  match r with
  | inl e => inl e
  | inr a => k a
  end.

(** [load_recipients_from_excel]: the statements of the CSV loader, with
    [pd.read_excel(file_path, sheet_name=sheet_name)] as the reader and
    another text in the last handler.  [sheet_name] is the name or the
    index of one sheet. *)
Definition load_recipients_from_excel
    (read_excel : string -> pyval -> exn + DataFrame)
    (file_path : string) (sheet_name : pyval) : exn + DataFrame :=
  match load_body (fun path => read_excel path sheet_name) file_path with
  | inr df => inr df
  | inl e =>
      if is_file_not_found e
      then inl (mkExn FileNotFoundError
                  ("File tidak ditemukan: " ++ file_path))
      else inl (mkExn PlainException
                  ("Error membaca file Excel: " ++ exc_str e))
  end.

(** The statements inside the [try] of [check_api_health];
    [requests_get url] is what [requests.get(url, timeout=10)] does.  The
    two [print] lines that show the version and the services each read
    [result.get('data', {})]. *)
Definition health_body (requests_get : string -> exn + Response)
    (b : EmailBroadcaster) : exn + bool :=
  and_then (requests_get (api_url b ++ "?path=health")%string)
    (fun response =>
  if status_code response =? 200
  then
    and_then (response_json response) (fun result =>
    and_then (json_get result "data" (JObj [])) (fun data =>
    and_then (json_get data "version" JNull) (fun _ =>
    and_then (json_get result "data" (JObj [])) (fun data' =>
    and_then (json_get data' "services" JNull) (fun _ =>
    inr true)))))
  else inr false).

(** [check_api_health]: every exception is answered with [False]. *)
Definition check_api_health (requests_get : string -> exn + Response)
    (b : EmailBroadcaster) : bool :=
  match health_body requests_get b with
  | inr answer => answer
  | inl _ => false
  end.

(** [save_results_to_csv]: [to_csv file rs] is what
    [pd.DataFrame(rs).to_csv(file, index=False)] does, [None] when it
    returns and the exception when it raises.  The value is the file
    written with its content, or [None] when nothing was written. *)
Definition save_results_to_csv
    (to_csv : string -> list SendResult -> option exn)
    (b : EmailBroadcaster) (output_file : string)
    : exn + option (string * list SendResult) :=
  match results b with
  | [] => inr None
  | rs =>
      match to_csv output_file rs with
      | Some e => inl e
      | None => inr (Some (output_file, rs))
      end
  end.

(** ** [main] *)

(** [s.lstrip()], [s.rstrip()] and [s.strip()]; white space is what
    [str.isspace] accepts. *)
Fixpoint lstrip (s : string) : string :=
  match s with
  | EmptyString => EmptyString
  | String c s' => if Re.is_space c then lstrip s' else s
  end.

Fixpoint rstrip (s : string) : string :=
  match s with
  | EmptyString => EmptyString
  | String c s' =>
      match rstrip s' with
      | EmptyString => if Re.is_space c then EmptyString
                       else String c EmptyString
      | t => String c t
      end
  end.

Definition strip (s : string) : string := rstrip (lstrip s).

(** [s.lower()] on code points below 256: the letters A-Z and the
    accented capitals of Latin-1 have their small letter 32 places on. *)
Definition lower_char (c : ascii) : ascii :=
  let n := nat_of_ascii c in
  if ((65 <=? n) && (n <=? 90) || (192 <=? n) && (n <=? 214)
      || (216 <=? n) && (n <=? 222))%nat
  then ascii_of_nat (n + 32)
  else c.

Fixpoint lower (s : string) : string :=
  match s with
  | EmptyString => EmptyString
  | String c s' => String (lower_char c) (lower s')
  end.

(** [s or default] *)
Definition or_default (s default : string) : string :=
  if PyStr.truthy s then s else default.

(** The machine [main] runs on: the health address, the two readers, the
    mail service, the writer of result files, and Python's [float] and
    [int] on text (finite values, as rationals and integers). *)
Record Machine := mkMachine {
  m_get : string -> exn + Response;
  m_read_csv : string -> exn + DataFrame;
  m_read_excel : string -> pyval -> exn + DataFrame;
  m_service : Env;
  m_to_csv : string -> list SendResult -> option exn;
  m_float : string -> exn + Q;
  m_int : string -> exn + Z
}.

(** A run of [main]: the lines still to be typed, the broadcaster with
    the trace of its calls, and the result files written so far. *)
Record Run := mkRun {
  stdin : list string;
  session : State;
  written : list (string * list SendResult)
}.

Definition C (A : Type) := Run -> (exn + A) * Run.

Definition cret {A : Type} (a : A) : C A := fun r => (inr a, r).

Definition cbind {A B : Type} (m : C A) (k : A -> C B) : C B :=
  fun r => match m r with
           | (inr a, r') => k a r'
           | (inl e, r') => (inl e, r')
           end.

Definition clift {A : Type} (x : exn + A) : C A := fun r => (x, r).

Declare Scope console_scope.
Delimit Scope console_scope with console.
Notation "x <~ m ;; k" := (cbind m (fun x => k))
  (at level 61, m at next level, right associativity) : console_scope.

(** [input(prompt)]: the next line typed, [EOFError] when there is none. *)
Definition input : C string :=
  fun r => match stdin r with
           | [] => (inl (mkExn OtherError "EOF when reading a line"), r)
           | line :: rest => (inr line, mkRun rest (session r) (written r))
           end.

(** The loop that reads the lines of a text up to a line that is [END]
    once stripped. *)
Fixpoint read_block (lines acc : list string)
    : (exn + list string) * list string :=
  match lines with
  | [] => (inl (mkExn OtherError "EOF when reading a line"), [])
  | line :: rest =>
      if String.eqb (strip line) "END"
      then (inr acc, rest)
      else read_block rest (acc ++ [line])
  end.

(** The loop, followed by ['\n'.join(lines)]. *)
Definition input_block : C string :=
  fun r => match read_block (stdin r) [] with
           | (inl e, rest) => (inl e, mkRun rest (session r) (written r))
           | (inr lines, rest) =>
               (inr (PyStr.join (String "010" EmptyString) lines),
                mkRun rest (session r) (written r))
           end.

(** A method of the broadcaster, run on the broadcaster of [main]. *)
Definition on_session {A : Type} (m : M A) : C A :=
  fun r => match m (session r) with
           | Returned a s => (inr a, mkRun (stdin r) s (written r))
           | Raised e s => (inl e, mkRun (stdin r) s (written r))
           end.

(** [broadcaster.save_results_to_csv(output_file)] *)
Definition save_results (w : Machine) (output_file : string) : C unit :=
  fun r => match save_results_to_csv (m_to_csv w) (self (session r))
                   output_file with
           | inl e => (inl e, r)
           | inr None => (inr tt, r)
           | inr (Some file) =>
               (inr tt, mkRun (stdin r) (session r) (written r ++ [file]))
           end.

Definition API_URL : string := "<GANTI DENGAN URL API GAS>".
Definition API_KEY : string := "<apikey>".

Local Open Scope console_scope.

(** The statements of [main] from the preview of the recipients on. *)
Definition main_broadcast (w : Machine) (recipients : DataFrame) : C unit :=
  confirm <~ input ;;
  if negb (String.eqb (lower (strip confirm)) "y")
  then cret tt
  else
    from_name <~ input ;;
    subject <~ input ;;
    body <~ input_block ;;
    use_html <~ input ;;
    html_body <~ (if String.eqb (lower (strip use_html)) "y"
                  then html <~ input_block ;; cret (Some html)
                  else cret None) ;;
    delay_text <~ input ;;
    delay <~ clift (m_float w (or_default (strip delay_text) "1.0")) ;;
    batch_text <~ input ;;
    batch_size <~ clift (m_int w (or_default (strip batch_text) "10")) ;;
    results_ <~ on_session
                 (send_bulk_email (m_service w) recipients (strip subject)
                    body html_body (strip from_name) delay batch_size) ;;
    save_answer <~ input ;;
    if String.eqb (lower (strip save_answer)) "y"
    then
      output_file <~ input ;;
      save_results w (or_default (strip output_file) "broadcast_results.csv")
    else cret tt.

(** [main]: the health check, the choice of the source, the loading (an
    exception of a loader ends [main] quietly), then the rest. *)
Definition main_body (w : Machine) : C unit :=
  fun r =>
    if negb (check_api_health (m_get w) (self (session r)))
    then (inr tt, r)
    else
      (choice <~ input ;;
       if String.eqb (strip choice) "1"
       then
         csv_file <~ input ;;
         match load_recipients_from_csv (m_read_csv w) (strip csv_file) with
         | inl _ => cret tt
         | inr recipients => main_broadcast w recipients
         end
       else if String.eqb (strip choice) "2"
       then
         excel_file <~ input ;;
         match load_recipients_from_excel (m_read_excel w)
                 (strip excel_file) (PInt 0) with
         | inl _ => cret tt
         | inr recipients => main_broadcast w recipients
         end
       else cret tt) r.

Definition main (w : Machine) (typed : list string) : (exn + unit) * Run :=
  main_body w (mkRun typed (boot (init API_URL API_KEY)) []).

Local Close Scope console_scope.

(** ** Vocabulary of further properties *)

(** Every character of [s] is in the class. *)
Fixpoint all_chars (cls : ascii -> bool) (s : string) : bool :=
  match s with
  | EmptyString => true
  | String c s' => cls c && all_chars cls s'
  end.

(** A non-empty run of characters that are neither white space nor [@]. *)
Definition email_part (s : string) : bool :=
  PyStr.truthy s && all_chars not_space_at s.

(** The line feed. *)
Definition newline : string := String "010" EmptyString.

(** A frame of three recipients as [pd.read_csv] labels them. *)
Definition recipients_0_1_2 : DataFrame :=
  mkDataFrame ["nama"; "email"]
    [recipient_row 0 (PStr "Alice") (PStr "alice@example.com");
     recipient_row 1 (PStr "Bob") (PStr "bob@example.com");
     recipient_row 2 (PStr "Citra") (PStr "citra@example.com")].

(** The number of results with the status [s]. *)
Definition has_status (s : send_status) (r : SendResult) : bool :=
  match s, status r with
  | success, success | failed, failed => true
  | _, _ => false
  end.

Definition count_status (s : send_status) (l : list SendResult) : Z :=
  Z.of_nat (List.length (filter (has_status s) l)).

(** An answer of one of the shapes the code distinguishes on purpose: a
    success it accepts, a refusal whose error it can read, or an exception
    of the call or of reading the body. *)
Definition contract_answer (o : exn + Response) : bool :=
  accepted o || refused o
  || match transport_failure o with Some _ => true | None => false end.

(** The value an optional key has in the payload. *)
Definition optional_value (o : option string) : option pyval :=
  match o with
  | Some s => if PyStr.truthy s then Some (PStr s) else None
  | None => None
  end.

(** What every outbound call of a broadcast looks like: it goes to the
    address [url] with the key [key] and the endpoint [send-email], carries
    neither [cc] nor [bcc], and is addressed to the email cell of one of
    the rows. *)
Definition broadcast_call (url key : string) (rs : list (Z * Series))
    (e : event) : Prop :=
  match e with
  | EvPost u p =>
      u = url
      /\ lookup "endpoint" p = Some (PStr "send-email")
      /\ lookup "api_key" p = Some (PStr key)
      /\ lookup "cc" p = None
      /\ lookup "bcc" p = None
      /\ exists row, In row rs /\ lookup "email" (snd row) = lookup "to" p
  | _ => True
  end.

(** The answers for which a counter has been incremented before an
    [AttributeError] sends the code into its last handler, which increments
    [failed_count]: a success whose [data] is not an object, a refusal
    whose [error] is not an object, and a body that is not an object under
    another status than 200. *)
Definition counted_twice (o : exn + Response) : bool :=
  match o with
  | inr (mkResponse code (inr (JObj m))) =>
      if (code =? 200)
         && json_truthy (match lookup "success" m with
                         | Some v => v
                         | None => JNull
                         end)
      then match lookup "data" m with
           | None | Some (JObj _) => false
           | Some _ => true
           end
      else match lookup "error" m with
           | None | Some (JObj _) => false
           | Some _ => true
           end
  | inr (mkResponse code (inr _)) => negb (code =? 200)
  | _ => false
  end.

(** A machine on which everything works: the health address answers, both
    readers return the table [contacts], the service accepts every
    message, files can be written, and the texts [1.0] and [10] are read
    as numbers. *)
Definition machine_ok : Machine :=
  mkMachine
    (fun _ => inr (mkResponse 200
                     (inr (JObj [("data",
                                  JObj [("version", JStr "1.0")])]))))
    (fun _ => inr contacts)
    (fun _ _ => inr contacts)
    service_ok
    (fun _ _ => None)
    (fun s => if String.eqb s "1.0" then inr 1%Q
              else inl (mkExn ValueError "could not convert string to float"))
    (fun s => if String.eqb s "10" then inr 10
              else inl (mkExn ValueError "invalid literal for int()")).

(** The lines of a session: CSV source, the file, a confirmation, the
    sender, the subject, a body of one line, no HTML, the default delay and
    batch size, and the results saved under the default name. *)
Definition typed_session : list string :=
  ["1"; "kontak.csv"; "Y"; "Tim Promo"; "Halo {nama}"; "Yth. {nama}";
   "END"; "n"; ""; ""; "y"; ""].

(** What a run of [main] may have written: nothing, or one file that
    holds the results of the broadcaster, which are not empty, at the end
    of a run that no exception has cut short. *)
Definition written_ok (out : (exn + unit) * Run) : Prop :=
  written (snd out) = []
  \/ exists file,
       written (snd out) = [(file, results (self (session (snd out))))]
       /\ results (self (session (snd out))) <> []
       /\ fst out = inr tt.

(** A row without its cell in the column [col]. *)
Definition without_column (col : string) (r : Z * Series) : Z * Series :=
  (fst r, filter (fun kv => negb (String.eqb (fst kv) col)) (snd r)).

(** The row has no cell in the column [col]. *)
Definition lacks_column (col : string) (r : Z * Series) : bool :=
  negb (existsb (fun kv => String.eqb (fst kv) col) (snd r)).

(** * Properties *)

(** ** Strings and [str.replace] *)

Section StringFacts.

Local Open Scope string_scope.

Lemma append_nil_r (s : string) : s ++ "" = s.
Proof. induction s as [|c s IH]; simpl; [reflexivity | now rewrite IH]. Qed.

Lemma append_assoc (a b c : string) : (a ++ b) ++ c = a ++ b ++ c.
Proof. induction a as [|x a IH]; simpl; [reflexivity | now rewrite IH]. Qed.

Lemma starts_with_append (t r : string) : PyStr.starts_with t (t ++ r) = true.
Proof.
  induction t as [|a t IH]; simpl; [reflexivity|].
  now rewrite Ascii.eqb_refl, IH.
Qed.

Lemma starts_with_split (t s : string) :
  PyStr.starts_with t s = true -> exists r, s = t ++ r.
Proof.
  revert s; induction t as [|a t IH]; intros s H.
  - exists s; reflexivity.
  - destruct s as [|b s]; simpl in H; [discriminate|].
    apply andb_true_iff in H as [Hab Hts].
    apply Ascii.eqb_eq in Hab; subst b.
    destruct (IH _ Hts) as [r ->]. exists r; reflexivity.
Qed.

(** A prefix of a longer text is still one. *)
Lemma starts_with_extend (t p r : string) :
  PyStr.starts_with t p = true -> PyStr.starts_with t (p ++ r) = true.
Proof.
  intros H. destruct (starts_with_split _ _ H) as [q ->].
  rewrite append_assoc. apply starts_with_append.
Qed.

(** If [t] lacks the character [c], a match of [t] that begins in [p] cannot
    run into a [c] placed right after [p]. *)
Lemma starts_with_stops (c : ascii) (t : string) :
  absent c t = true ->
  forall p x, PyStr.starts_with t (p ++ String c x) = true ->
              PyStr.starts_with t p = true.
Proof.
  induction t as [|a t IH]; intros Habs p x H; [reflexivity|].
  simpl in Habs. apply andb_true_iff in Habs as [Hac Habs].
  destruct p as [|b p]; simpl in H |- *.
  - apply andb_true_iff in H as [H _]. rewrite H in Hac. discriminate.
  - apply andb_true_iff in H as [Hab H]. rewrite Hab. simpl.
    now apply (IH Habs p x).
Qed.

Lemma replace_scan_cons (old new s : string) (c : ascii) :
  PyStr.replace_scan 0 old new (String c s)
  = if PyStr.starts_with old (String c s)
    then new ++ PyStr.replace_scan (String.length old - 1) old new s
    else String c (PyStr.replace_scan 0 old new s).
Proof. reflexivity. Qed.

Lemma occurs_cons (t s : string) (c : ascii) :
  PyStr.occurs t (String c s)
  = PyStr.starts_with t (String c s) || PyStr.occurs t s.
Proof. reflexivity. Qed.

Lemma replace_scan_skip (old new t rest : string) :
  PyStr.replace_scan (String.length t) old new (t ++ rest)
  = PyStr.replace_scan 0 old new rest.
Proof.
  induction t as [|a t IH]; simpl; [|exact IH].
  destruct rest; reflexivity.
Qed.

Variable c0 : ascii.
Variable tail : string.
Hypothesis unbordered : absent c0 tail = true.

Let old := String c0 tail.

Lemma replace_scan_hit (new rest : string) :
  PyStr.replace_scan 0 old new (old ++ rest)
  = new ++ PyStr.replace_scan 0 old new rest.
Proof.
  change (old ++ rest) with (String c0 (tail ++ rest)).
  rewrite replace_scan_cons.
  change (String c0 (tail ++ rest)) with (old ++ rest).
  rewrite starts_with_append.
  change (String.length old - 1)%nat with (String.length tail - 0)%nat.
  now rewrite Nat.sub_0_r, replace_scan_skip.
Qed.

Lemma not_started_before (p rest : string) (c : ascii) :
  PyStr.starts_with old (String c p) = false ->
  PyStr.starts_with old (String c (p ++ old ++ rest)) = false.
Proof.
  intros H.
  destruct (PyStr.starts_with old (String c (p ++ old ++ rest))) eqn:E;
    [|reflexivity].
  unfold old in *. simpl in E, H.
  apply andb_true_iff in E as [E1 E2].
  rewrite E1 in H. simpl in H.
  rewrite (starts_with_stops c0 tail unbordered p (tail ++ rest) E2) in H.
  discriminate.
Qed.

(** Text before the first occurrence is copied, the occurrence replaced. *)
Lemma replace_scan_piece (new p rest : string) :
  PyStr.occurs old p = false ->
  PyStr.replace_scan 0 old new (p ++ old ++ rest)
  = p ++ new ++ PyStr.replace_scan 0 old new rest.
Proof.
  induction p as [|c p IH]; intros Hfree.
  - apply replace_scan_hit.
  - rewrite occurs_cons in Hfree.
    apply orb_false_iff in Hfree as [Hhere Hlater].
    change (String c p ++ old ++ rest) with (String c (p ++ old ++ rest)).
    rewrite replace_scan_cons.
    rewrite (not_started_before p rest c Hhere).
    rewrite (IH Hlater). reflexivity.
Qed.

(** Text without an occurrence is copied. *)
Lemma replace_scan_free (new p : string) :
  PyStr.occurs old p = false -> PyStr.replace_scan 0 old new p = p.
Proof.
  induction p as [|c p IH]; intros Hfree; [reflexivity|].
  rewrite occurs_cons in Hfree.
  apply orb_false_iff in Hfree as [Hhere Hlater].
  now rewrite replace_scan_cons, Hhere, IH.
Qed.

(** [str.replace] on a text cut at the occurrences of [old]. *)
Lemma replace_join (new : string) (pieces : list string) :
  forallb (fun p => negb (PyStr.occurs old p)) pieces = true ->
  PyStr.replace (PyStr.join old pieces) old new = PyStr.join new pieces.
Proof.
  change (PyStr.replace (PyStr.join old pieces) old new)
    with (PyStr.replace_scan 0 old new (PyStr.join old pieces)).
  induction pieces as [|p ps IH]; intros Hall; [reflexivity|].
  simpl in Hall. apply andb_true_iff in Hall as [Hp Hps].
  apply negb_true_iff in Hp.
  destruct ps as [|q ps].
  - simpl. now apply replace_scan_free.
  - change (PyStr.join old (p :: q :: ps))
      with (p ++ old ++ PyStr.join old (q :: ps)).
    rewrite replace_scan_piece by exact Hp.
    rewrite (IH Hps). reflexivity.
Qed.

(** A text with an occurrence of [old] has a first one. *)
Lemma first_occurrence (s : string) :
  PyStr.occurs old s = true ->
  exists p rest, s = p ++ old ++ rest /\ PyStr.occurs old p = false.
Proof.
  induction s as [|c s IH]; intros H.
  - discriminate H.
  - rewrite occurs_cons in H.
    destruct (PyStr.starts_with old (String c s)) eqn:Hhere.
    + destruct (starts_with_split _ _ Hhere) as [r Hr].
      exists "", r. split; [exact Hr | reflexivity].
    + simpl in H.
      destruct (IH H) as (p & rest & -> & Hp).
      exists (String c p), rest. split; [reflexivity|].
      rewrite occurs_cons, Hp, orb_false_r.
      destruct (PyStr.starts_with old (String c p)) eqn:E; [|reflexivity].
      apply (starts_with_extend _ _ (old ++ rest)) in E.
      change (String c p ++ old ++ rest)
        with (String c (p ++ old ++ rest)) in E.
      rewrite E in Hhere. discriminate.
Qed.

Lemma length_append (a b : string) :
  String.length (a ++ b) = (String.length a + String.length b)%nat.
Proof. induction a as [|x a IH]; simpl; [reflexivity | now rewrite IH]. Qed.

(** Every text is the join of pieces without an occurrence of [old]. *)
Lemma cut_at_occurrences (s : string) :
  exists pieces,
    s = PyStr.join old pieces
    /\ forallb (fun p => negb (PyStr.occurs old p)) pieces = true
    /\ pieces <> [].
Proof.
  remember (String.length s) as n eqn:Hn.
  assert (Hle : (String.length s <= n)%nat) by lia. clear Hn.
  revert s Hle. induction n as [|n IH]; intros s Hle.
  - destruct s; [|simpl in Hle; lia].
    exists [""]. repeat split; discriminate.
  - destruct (PyStr.occurs old s) eqn:Hocc.
    + destruct (first_occurrence s Hocc) as (p & rest & -> & Hp).
      destruct (IH rest) as (ps & Hrest & Hfree & Hne).
      { rewrite !length_append in Hle. unfold old in Hle. simpl in Hle. lia. }
      exists (p :: ps). repeat split.
      * destruct ps as [|q ps]; [congruence|].
        rewrite Hrest. reflexivity.
      * simpl. now rewrite Hp, Hfree.
      * discriminate.
    + exists [s]. repeat split.
      * simpl. now rewrite Hocc.
      * discriminate.
Qed.

End StringFacts.

(** ** Personalisation *)

Lemma token_unbordered : absent "{" "nama}" = true.
Proof. reflexivity. Qed.

(** Every template is cut by its placeholders into pieces free of them. *)
Lemma every_template_is_cut (template : string) :
  exists pieces,
    template = PyStr.join token pieces
    /\ forallb token_free pieces = true.
Proof.
  destruct (cut_at_occurrences "{" "nama}" template) as (ps & H1 & H2 & _).
  exists ps. split; assumption.
Qed.

Lemma personalize_pieces (n : string) (pieces : list string) :
  forallb token_free pieces = true ->
  py_replace (PyStr.join token pieces) "{nama}" (PStr n)
  = inr (PyStr.join n pieces).
Proof.
  intros H. unfold py_replace. f_equal.
  exact (replace_join "{" "nama}" token_unbordered n pieces H).
Qed.

Lemma join_empty (sep n : string) (pieces : list string) :
  PyStr.truthy sep = true ->
  PyStr.truthy (PyStr.join sep pieces) = false ->
  PyStr.truthy (PyStr.join n pieces) = false.
Proof.
  intros Hsep H. destruct pieces as [|p [|q ps]]; [reflexivity | exact H |].
  exfalso. simpl in H. destruct p as [|c p]; [|discriminate H].
  destruct sep; discriminate.
Qed.

(** C7. For every template built from pieces of text joined by the
    placeholder [{nama}], and every recipient name that is text,
    [send_single_email] puts into the payload the subject, the body and the
    HTML body with every placeholder replaced by the name and every piece
    in between unchanged; the other fields are passed on as they are.  (An
    HTML body that ends up empty is left out, as any empty value is.) *)
Theorem personalization_replaces_every_token :
  forall (key : string) (to_email : pyval) (n from_name : string)
         (cc bcc : option string) (subject body html : list string),
    forallb token_free subject = true ->
    forallb token_free body = true ->
    forallb token_free html = true ->
    build_payload key to_email (PStr n)
      (PyStr.join token subject) (PyStr.join token body)
      (Some (PyStr.join token html)) from_name cc bcc
    = inr ([("endpoint", PStr "send-email");
            ("api_key", PStr key);
            ("to", to_email);
            ("subject", PStr (PyStr.join n subject));
            ("body", PStr (PyStr.join n body));
            ("from_name", PStr from_name)]
           ++ optional_field "html_body" (Some (PyStr.join n html))
           ++ optional_field "cc" cc
           ++ optional_field "bcc" bcc).
Proof.
  intros key to_email n from_name cc bcc subject body html Hs Hb Hh.
  unfold build_payload.
  rewrite (personalize_pieces n body Hb), (personalize_pieces n subject Hs).
  unfold personalize_html.
  destruct (PyStr.truthy (PyStr.join token html)) eqn:Ht.
  - now rewrite (personalize_pieces n html Hh).
  - unfold optional_field.
    now rewrite (join_empty token n html eq_refl Ht).
Qed.

(** The template [Halo {nama}, ... {nama}!] and the name [Alice]. *)
Lemma personalization_replaces_every_token_witness :
  build_payload "k" (PStr "alice@example.com") (PStr "Alice")
    "Halo {nama}" "Yth. {nama}, selamat datang {nama}!"
    (Some "<b>{nama}</b>") "Broadcast System" None None
  = inr [("endpoint", PStr "send-email");
         ("api_key", PStr "k");
         ("to", PStr "alice@example.com");
         ("subject", PStr "Halo Alice");
         ("body", PStr "Yth. Alice, selamat datang Alice!");
         ("from_name", PStr "Broadcast System");
         ("html_body", PStr "<b>Alice</b>")].
Proof.
  exact (personalization_replaces_every_token "k" (PStr "alice@example.com")
           "Alice" "Broadcast System" None None
           ["Halo "; ""] ["Yth. "; ", selamat datang "; "!"] ["<b>"; "</b>"]
           eq_refl eq_refl eq_refl).
Defined.

(** ** Empty optional values *)

(** C10. An [html_body] that is the empty string is treated as an absent
    one: the same payload is built, without the key [html_body], and the
    whole call behaves the same.  An empty [cc] or [bcc] is left out of the
    payload in the same way. *)
Theorem empty_optional_values_are_absent :
  forall (env : Env) (key : string) (to_email to_name : pyval)
         (n subject body from_name : string) (html_body cc bcc : option string)
         (st : State),
    build_payload key to_email to_name subject body (Some "") from_name cc bcc
    = build_payload key to_email to_name subject body None from_name cc bcc
    /\ build_payload key to_email to_name subject body html_body from_name
         (Some "") bcc
       = build_payload key to_email to_name subject body html_body from_name
           None bcc
    /\ build_payload key to_email to_name subject body html_body from_name
         cc (Some "")
       = build_payload key to_email to_name subject body html_body from_name
           cc None
    /\ build_payload key to_email (PStr n) subject body (Some "") from_name
         (Some "") (Some "")
       = inr [("endpoint", PStr "send-email");
              ("api_key", PStr key);
              ("to", to_email);
              ("subject", PStr (PyStr.replace subject "{nama}" n));
              ("body", PStr (PyStr.replace body "{nama}" n));
              ("from_name", PStr from_name)]
    /\ send_single_email env to_email to_name subject body (Some "")
         from_name cc bcc st
       = send_single_email env to_email to_name subject body None
           from_name cc bcc st.
Proof.
  intros. repeat split; reflexivity.
Qed.

(** ** The loader *)

Section Loader.

Variable read_csv : string -> exn + DataFrame.
Variable file_path : string.

Lemma load_file_not_found (m : string) :
  read_csv file_path = inl (mkExn FileNotFoundError m) ->
  load_recipients_from_csv read_csv file_path
  = inl (mkExn FileNotFoundError ("File tidak ditemukan: " ++ file_path)).
Proof.
  intros H. unfold load_recipients_from_csv, load_body. now rewrite H.
Qed.

Lemma load_missing_columns (df0 : DataFrame) :
  read_csv file_path = inr df0 ->
  has_column df0 "nama" && has_column df0 "email" = false ->
  load_recipients_from_csv read_csv file_path
  = inl (mkExn PlainException
           ("Error membaca file CSV: Kolom yang hilang: "
            ++ PyStr.join ", "
                 (filter (fun col => negb (has_column df0 col))
                    required_columns))).
Proof.
  intros H Hcols. unfold load_recipients_from_csv, load_body. rewrite H.
  unfold required_columns. simpl filter.
  destruct (has_column df0 "nama"), (has_column df0 "email");
    try discriminate Hcols; reflexivity.
Qed.

(** A frame comes back only when the file was read and has both columns. *)
Lemma load_returns_inv (df : DataFrame) :
  load_recipients_from_csv read_csv file_path = inr df ->
  exists df0 mask,
    read_csv file_path = inr df0
    /\ has_column df0 "nama" = true /\ has_column df0 "email" = true
    /\ str_match (numeric_dtype df0 "email") (dropna df0 "email") "email"
       = inr mask
    /\ df = drop_column
              (let dfm := set_column (dropna df0 "email") "email_valid" mask in
               if 0 <? len (select dfm "email_valid" false)
               then select dfm "email_valid" true
               else dfm)
              "email_valid".
Proof.
  unfold load_recipients_from_csv, load_body. intros H.
  destruct (read_csv file_path) as [e|df0].
  { destruct (is_file_not_found e); discriminate H. }
  unfold required_columns in H. simpl filter in H.
  destruct (has_column df0 "nama") eqn:Hn, (has_column df0 "email") eqn:He;
    try (simpl in H; discriminate H).
  cbv beta iota delta [negb] in H.
  destruct (str_match (numeric_dtype df0 "email") (dropna df0 "email") "email")
    as [e|mask] eqn:Hm; [destruct (is_file_not_found e); discriminate H|].
  exists df0, mask. injection H as H. now repeat split.
Qed.

End Loader.

(** C9 as stated does not hold: for a table without the column [nama] the
    exception that leaves the loader is a plain [Exception], not a
    [ValueError], because the loader's own last handler catches the
    [ValueError] and raises [Exception] in its place. *)
Lemma missing_column_leaves_as_plain_exception :
  load_recipients_from_csv
    (fun _ => inr (mkDataFrame ["email"] [(0, [("email", PStr "a@b.co")])]))
    "penerima.csv"
  = inl (mkExn PlainException
           "Error membaca file CSV: Kolom yang hilang: nama")
  /\ ~ (exists m,
          load_recipients_from_csv
            (fun _ => inr (mkDataFrame ["email"]
                             [(0, [("email", PStr "a@b.co")])]))
            "penerima.csv"
          = inl (mkExn ValueError m)).
Proof.
  split; [reflexivity|]. intros [m H]. discriminate H.
Qed.

(** C9, amended. When [pd.read_csv] reports that the path does not exist
    the loader raises [FileNotFoundError]; when the file is read but [nama]
    or [email] is not among its columns the loader raises a plain
    [Exception] whose text names the missing columns.  In both cases no
    frame is returned. *)
Theorem loader_failures :
  forall (read_csv : string -> exn + DataFrame) (file_path : string),
    (forall m,
        read_csv file_path = inl (mkExn FileNotFoundError m) ->
        load_recipients_from_csv read_csv file_path
        = inl (mkExn FileNotFoundError
                 ("File tidak ditemukan: " ++ file_path)))
    /\ (forall df0,
           read_csv file_path = inr df0 ->
           has_column df0 "nama" && has_column df0 "email" = false ->
           load_recipients_from_csv read_csv file_path
           = inl (mkExn PlainException
                    ("Error membaca file CSV: Kolom yang hilang: "
                     ++ PyStr.join ", "
                          (filter (fun col => negb (has_column df0 col))
                             required_columns)))).
Proof.
  intros read_csv file_path. split.
  - apply load_file_not_found.
  - apply load_missing_columns.
Qed.

(** A path that does not exist, and a table with the single column
    [telepon]. *)
Lemma loader_failures_witness :
  load_recipients_from_csv
    (fun _ => inl (mkExn FileNotFoundError
                     "[Errno 2] No such file or directory: 'tidak_ada.csv'"))
    "tidak_ada.csv"
  = inl (mkExn FileNotFoundError "File tidak ditemukan: tidak_ada.csv")
  /\ load_recipients_from_csv
       (fun _ => inr (mkDataFrame ["telepon"] [(0, [("telepon", PInt 62)])]))
       "kontak.csv"
     = inl (mkExn PlainException
              "Error membaca file CSV: Kolom yang hilang: nama, email").
Proof.
  split.
  - exact (proj1 (loader_failures
                    (fun _ => inl (mkExn FileNotFoundError
                       "[Errno 2] No such file or directory: 'tidak_ada.csv'"))
                    "tidak_ada.csv") _ eq_refl).
  - exact (proj2 (loader_failures
                    (fun _ => inr (mkDataFrame ["telepon"]
                                     [(0, [("telepon", PInt 62)])]))
                    "kontak.csv") _ eq_refl eq_refl).
Defined.

(** ** One send *)

Ltac run_send :=
  unfold send_single_email, bind, get_self, lift, ret, raise, try_except,
    requests_post, incr_sent, incr_failed, update_self, datetime_now, json_get.

(** Case analysis on the innermost scrutinee, until none is left. *)
Ltac split_matches :=
  repeat (simpl;
          match goal with
          | |- context [match ?x with _ => _ end] =>
              tryif (match x with
                     | context [match _ with _ => _ end] => idtac
                     end)
              then fail
              else destruct x eqn:?
          end);
  simpl.

Section SingleSend.

Variable env : Env.
Variables to_email to_name : pyval.
Variables subject body from_name : string.
Variables html_body cc bcc : option string.

Let send := send_single_email env to_email to_name subject body html_body
              from_name cc bcc.

(** Whatever happens, a send leaves the results list and the address of the
    service alone, and a result it returns is about its recipient. *)
Lemma send_single_email_frame (st : State) :
  results (self (final_state (send st))) = results (self st)
  /\ api_url (self (final_state (send st))) = api_url (self st)
  /\ api_key (self (final_state (send st))) = api_key (self st)
  /\ match send st with
     | Returned r _ => email r = to_email /\ name r = to_name
     | Raised _ _ => True
     end.
Proof.
  unfold send. run_send. split_matches; auto.
Qed.

End SingleSend.

Section SingleSendText.

Variable env : Env.
Variable to_email : pyval.
Variables n subject body from_name : string.
Variables html_body cc bcc : option string.

Let send := send_single_email env to_email (PStr n) subject body html_body
              from_name cc bcc.

(** The statements before the [try] cannot fail when the name is text. *)
Lemma build_payload_text (key : string) :
  exists payload,
    build_payload key to_email (PStr n) subject body html_body from_name
      cc bcc = inr payload.
Proof.
  unfold build_payload, personalize_html, py_replace.
  destruct html_body as [h|]; [destruct (PyStr.truthy h)|]; eexists;
    reflexivity.
Qed.

(** With a name that is text a send always returns a result about its
    recipient, after exactly one outbound call, and reads the answer [o] to
    that call as follows. *)
Lemma send_single_email_text (st : State) :
  exists payload,
    build_payload (api_key (self st)) to_email (PStr n) subject body
      html_body from_name cc bcc = inr payload
    /\ let o := post env (posted st) (api_url (self st)) payload in
       exists r st',
         send st = Returned r st'
         /\ (email r = to_email /\ name r = PStr n
             /\ timestamp r = now env (S (posted st)))
         /\ (results (self st') = results (self st)
             /\ api_url (self st') = api_url (self st)
             /\ api_key (self st') = api_key (self st)
             /\ posted st' = S (posted st)
             /\ trace st' = trace st ++ [EvPost (api_url (self st)) payload])
         /\ (accepted o = true ->
             status r = success
             /\ message r = JStr "Email sent successfully"
             /\ message_id r = Some (provider_message_id o)
             /\ sent_count (self st') = sent_count (self st) + 1
             /\ failed_count (self st') = failed_count (self st))
         /\ (accepted o = false ->
             status r = failed /\ message_id r = None
             /\ sent_count (self st') + failed_count (self st')
                > sent_count (self st) + failed_count (self st))
         /\ (refused o = true ->
             message r = provider_error_message o
             /\ sent_count (self st') = sent_count (self st)
             /\ failed_count (self st') = failed_count (self st) + 1)
         /\ (forall e, transport_failure o = Some e ->
                       message r = handler_message e
                       /\ sent_count (self st') = sent_count (self st)
                       /\ failed_count (self st')
                          = failed_count (self st) + 1)
         /\ (accepted o = false -> refused o = false ->
             exists text,
               message r = JStr ("Request error: " ++ text)
               \/ message r = JStr ("Unexpected error: " ++ text)).
Proof.
  destruct (build_payload_text (api_key (self st))) as [payload Hp].
  exists payload. split; [exact Hp|].
  unfold send. run_send. rewrite Hp.
  destruct (post env (posted st) (api_url (self st)) payload)
    as [e|[code [e|v]]] eqn:Ho.
  all: unfold accepted, refused, provider_message_id, provider_error_message,
         transport_failure, handler_message.
  all: split_matches.
  all: do 2 eexists.
  all: repeat (split; [try reflexivity|]).
  all: try reflexivity.
  all: intros; try discriminate.
  all: repeat match goal with
         | H : Some _ = Some _ |- _ => injection H as H; subst
         | H : is_request_exception _ = _ |- _ => rewrite H
         | |- _ /\ _ => split
         end.
  all: simpl; try reflexivity; try congruence; try lia.
  all: eexists; first [left; reflexivity | right; reflexivity].
Qed.

End SingleSendText.

(** ** The loop *)

Lemma final_state_bind {A B : Type} (m : M A) (k : A -> M B) (st : State) :
  final_state (bind m k st)
  = match m st with
    | Returned a s' => final_state (k a s')
    | Raised _ s' => s'
    end.
Proof. unfold bind. destruct (m st); reflexivity. Qed.

Lemma map_kind_of_app (t : list event) (e : event) :
  map kind_of (t ++ [e]) = map kind_of t ++ [kind_of e].
Proof. now rewrite map_app. Qed.

(** The lengths the model sleeps through, in the order of [Q]. *)
Lemma sleep_returns_iff (seconds : Q) :
  sleep_returns seconds = true
  <-> (0 <= seconds
       /\ seconds * inject_Z (10 ^ 9)%Z < inject_Z (2 ^ 62)%Z)%Q.
Proof.
  unfold sleep_returns, Qlt_bool, nanoseconds.
  rewrite andb_true_iff, negb_true_iff, Qle_bool_iff. split.
  - intros [Hpos Hhigh]. split.
    + apply Qnot_lt_le. intros Hneg.
      assert (Hn : (seconds * inject_Z (10 ^ 9)%Z
                    < 0 * inject_Z (10 ^ 9)%Z)%Q)
        by (apply Qmult_lt_compat_r; [reflexivity|exact Hneg]).
      apply (Qlt_not_le _ _ Hn).
      apply Qle_trans with (y := 0%Q); [discriminate|exact Hpos].
    + apply Qnot_le_lt. intros Hle.
      apply Qle_bool_iff in Hle. rewrite Hle in Hhigh. discriminate Hhigh.
  - intros [Hpos Hlt]. split.
    + apply Qmult_le_0_compat; [exact Hpos|discriminate].
    + destruct (Qle_bool (inject_Z (2 ^ 62)%Z)
                  (seconds * inject_Z (10 ^ 9)%Z)) eqn:Hle; [|reflexivity].
      apply Qle_bool_iff in Hle. now apply Qlt_not_le in Hlt.
Qed.

Lemma Qle_bool_false (x y : Q) : (y < x)%Q -> Qle_bool x y = false.
Proof.
  intros H. destruct (Qle_bool x y) eqn:Hle; [|reflexivity].
  apply Qle_bool_iff in Hle. now apply Qlt_not_le in H.
Qed.

Lemma time_sleep_returns (seconds : Q) :
  sleep_returns seconds = true -> time_sleep seconds = emit (EvSleep seconds).
Proof.
  unfold sleep_returns, time_sleep, Qlt_bool. cbv zeta. intros H.
  apply andb_true_iff in H. destruct H as [Hpos Hhigh].
  apply negb_true_iff in Hhigh.
  assert (Hlow : (0 <= nanoseconds seconds)%Q) by now apply Qle_bool_iff.
  assert (Hup : (nanoseconds seconds < inject_Z (2 ^ 62)%Z)%Q).
  { apply Qnot_le_lt. intros Hle. apply Qle_bool_iff in Hle.
    rewrite Hle in Hhigh. discriminate Hhigh. }
  rewrite Hpos, Hhigh.
  rewrite (proj2 (Qle_bool_iff (inject_Z (- 2 ^ 63 - 1024)%Z)
                    (nanoseconds seconds)))
    by (apply Qle_trans with (y := 0%Q); [discriminate|exact Hlow]).
  rewrite (proj2 (Qle_bool_iff (nanoseconds seconds)
                    (inject_Z (2 ^ 63 + 1024)%Z)))
    by (apply Qlt_le_weak, Qlt_trans with (y := inject_Z (2 ^ 62)%Z);
        [exact Hup|reflexivity]).
  rewrite (Qle_bool_false (inject_Z (2 ^ 63 - 512)%Z) (nanoseconds seconds))
    by (apply Qlt_trans with (y := inject_Z (2 ^ 62)%Z);
        [exact Hup|reflexivity]).
  reflexivity.
Qed.

(** A second, ten minutes and 4.6e9 seconds are slept through; a negative
    length is a [ValueError], and so is the first length whose count is
    rounded to [2^63]; 9.3e9 and 1e10 seconds, and as many below 0, are an
    [OverflowError]. *)
Lemma time_sleep_on_some_lengths (st : State) :
  time_sleep 1 st = Returned tt (mkState (self st) (posted st)
                                   (trace st ++ [EvSleep 1]))
  /\ sleep_returns 600 = true
  /\ sleep_returns (inject_Z 4600000000) = true
  /\ time_sleep (-1) st
     = Raised (mkExn ValueError "sleep length must be non-negative") st
  /\ time_sleep (9223372036854775296 # 1000000000) st
     = Raised (mkExn ValueError "sleep length must be non-negative") st
  /\ time_sleep (inject_Z 9300000000) st
     = Raised (mkExn OverflowError
                 "timestamp too large to convert to C _PyTime_t") st
  /\ time_sleep (inject_Z 10000000000) st
     = Raised (mkExn OverflowError
                 "timestamp too large to convert to C _PyTime_t") st
  /\ time_sleep (inject_Z (-10000000000)) st
     = Raised (mkExn OverflowError
                 "timestamp too large to convert to C _PyTime_t") st.
Proof. repeat split. Qed.

Section Loop.

Variable env : Env.
Variable total_recipients : Z.
Variables subject body from_name : string.
Variable html_body : option string.
Variable delay_seconds : Q.
Variable batch_size : Z.

Let step := bulk_body env total_recipients subject body html_body from_name
              delay_seconds batch_size.

(** One turn of the loop adds at most one result, for the row's email. *)
Lemma bulk_body_results (r : Z * Series) (st : State) :
  results (self (final_state (step r st))) = results (self st)
  \/ exists res,
       results (self (final_state (step r st))) = results (self st) ++ [res]
       /\ lookup "email" (snd r) = Some (email res).
Proof.
  unfold step, bulk_body, getitem.
  destruct (lookup "email" (snd r)) as [e|]; [|left; reflexivity].
  destruct (lookup "nama" (snd r)) as [nm|]; [|left; reflexivity].
  unfold bind, lift, ret.
  pose proof (send_single_email_frame env e nm subject body from_name
                html_body None None st) as (Hres & _ & _ & Hrec).
  destruct (send_single_email env e nm subject body html_body from_name
              None None st) as [res st1|ex st1]; simpl in Hres;
    [|left; exact Hres].
  destruct Hrec as [Hemail _].
  right. exists res. split; [|now rewrite Hemail].
  unfold append_result, update_self, py_mod, time_sleep, emit, raise.
  split_matches; now rewrite Hres.
Qed.

Hypothesis batch_nonzero : batch_size <> 0.
Hypothesis delay_accepted : sleep_returns delay_seconds = true.

(** One turn of the loop for a row that can be sent to. *)
Lemma bulk_body_text (r : Z * Series) (st : State) :
  recipient_ok r = true ->
  exists res st',
    step r st = Returned tt st'
    /\ results (self st') = results (self st) ++ [res]
    /\ result_recipient res = row_recipient r
    /\ posted st' = S (posted st)
    /\ map kind_of (trace st')
       = map kind_of (trace st)
         ++ KPost :: (if pause_due batch_size total_recipients (fst r)
                      then [KSleep delay_seconds] else [])
    /\ api_url (self st') = api_url (self st)
    /\ api_key (self st') = api_key (self st)
    /\ sent_count (self st') + failed_count (self st')
       > sent_count (self st) + failed_count (self st).
Proof.
  unfold recipient_ok, row_recipient, cell. intros Hok.
  destruct (lookup "email" (snd r)) as [e|] eqn:He; [|discriminate Hok].
  destruct (lookup "nama" (snd r)) as [[n| | |]|] eqn:Hn;
    try discriminate Hok.
  destruct (send_single_email_text env e n subject body from_name html_body
              None None st)
    as (payload & _ & res & st1 & Hsend & (Hem & Hnm & _)
        & (Hres & Hurl & Hkey & Hposted & Htrace) & Hacc & Hrej & _).
  assert (Hcount : sent_count (self st1) + failed_count (self st1)
                   > sent_count (self st) + failed_count (self st)).
  { destruct (accepted (post env (posted st) (api_url (self st)) payload)).
    - destruct (Hacc eq_refl) as (_ & _ & _ & H1 & H2). lia.
    - destruct (Hrej eq_refl) as (_ & _ & H1). exact H1. }
  unfold step, bulk_body, getitem. rewrite He, Hn.
  unfold bind, lift, ret. rewrite Hsend.
  unfold append_result, update_self, py_mod, pause_due.
  apply Z.eqb_neq in batch_nonzero. rewrite batch_nonzero.
  destruct (((fst r + 1) mod batch_size =? 0)
            && (fst r + 1 <? total_recipients)).
  - rewrite (time_sleep_returns _ delay_accepted). unfold emit.
    eexists _, _. split; [reflexivity|]. simpl.
    rewrite map_kind_of_app, Htrace, map_kind_of_app, <- app_assoc.
    unfold result_recipient. rewrite Hem, Hnm, Hres.
    repeat split; auto.
  - eexists _, _. split; [reflexivity|]. simpl.
    rewrite Htrace, map_kind_of_app.
    unfold result_recipient. rewrite Hem, Hnm, Hres.
    repeat split; auto.
Qed.

End Loop.

Section Bulk.

Variable env : Env.
Variables subject body from_name : string.
Variable html_body : option string.
Variable delay_seconds : Q.
Variable batch_size : Z.

Let step (total_recipients : Z) :=
  bulk_body env total_recipients subject body html_body from_name
    delay_seconds batch_size.

Let bulk (df : DataFrame) :=
  send_bulk_email env df subject body html_body from_name delay_seconds
    batch_size.

(** Whatever happens in the loop, every result in the list is about the
    email cell of one of the rows. *)
Lemma for_each_results (total : Z) (all : list (Z * Series))
    (rs : list (Z * Series)) (st : State) :
  incl rs all ->
  Forall (fun res => exists row, In row all
                                 /\ lookup "email" (snd row) = Some (email res))
    (results (self st)) ->
  Forall (fun res => exists row, In row all
                                 /\ lookup "email" (snd row) = Some (email res))
    (results (self (final_state (for_each rs (step total) st)))).
Proof.
  revert st. induction rs as [|r rs IH]; intros st Hincl Hst; [exact Hst|].
  simpl for_each. rewrite final_state_bind.
  pose proof (bulk_body_results env total subject body from_name html_body
                delay_seconds batch_size r st) as Hr.
  fold (step total) in Hr.
  assert (Hnext : Forall
            (fun res => exists row, In row all
                        /\ lookup "email" (snd row) = Some (email res))
            (results (self (final_state (step total r st))))).
  { destruct Hr as [-> | (res & -> & Hres)]; [exact Hst|].
    apply Forall_app. split; [exact Hst|].
    constructor; [|constructor].
    exists r. split; [apply Hincl; now left | exact Hres]. }
  destruct (step total r st) as [[] st1|e st1]; [|exact Hnext].
  apply IH; [|exact Hnext].
  intros x Hx. apply Hincl. now right.
Qed.

Lemma print_summary_self (st : State) :
  self (final_state (_print_summary st)) = self st.
Proof.
  unfold _print_summary, bind, get_self, lift, success_rate_of, emit, raise,
    ret.
  destruct (Z.of_nat (List.length (results (self st))) =? 0); reflexivity.
Qed.

Lemma send_bulk_email_results (df : DataFrame) (st : State) :
  Forall (fun res => exists row, In row (rows df)
                                 /\ lookup "email" (snd row) = Some (email res))
    (results (self (final_state (bulk df st)))).
Proof.
  unfold bulk, send_bulk_email.
  rewrite final_state_bind. unfold set_results at 1, update_self at 1.
  rewrite final_state_bind.
  match goal with
  | |- context [for_each ?l ?f ?s] =>
      pose proof (for_each_results (len df) (rows df) l s
                    (incl_refl _) (Forall_nil _)) as Hloop;
      fold (step (len df)) in *;
      destruct (for_each l (step (len df)) s) as [[] st1|e st1];
      [|exact Hloop]
  end.
  simpl in Hloop. rewrite final_state_bind.
  pose proof (print_summary_self st1) as Hsum.
  destruct (_print_summary st1) as [[] st2|e st2]; simpl in Hsum.
  - unfold bind, get_self, ret. simpl. now rewrite Hsum.
  - now rewrite Hsum.
Qed.

Hypothesis batch_nonzero : batch_size <> 0.
Hypothesis delay_accepted : sleep_returns delay_seconds = true.

(** The loop over rows that can all be sent to: it runs to its end, adds
    one result per row in the order of the rows, makes one call per row and
    pauses where the test of the loop says. *)
Lemma for_each_text (total : Z) (rs : list (Z * Series)) (st : State) :
  forallb recipient_ok rs = true ->
  exists out st',
    for_each rs (step total) st = Returned tt st'
    /\ results (self st') = results (self st) ++ out
    /\ map result_recipient out = map row_recipient rs
    /\ posted st' = (posted st + List.length rs)%nat
    /\ map kind_of (trace st')
       = map kind_of (trace st)
         ++ paced delay_seconds batch_size total (map fst rs)
    /\ api_url (self st') = api_url (self st)
    /\ api_key (self st') = api_key (self st)
    /\ sent_count (self st') + failed_count (self st')
       >= sent_count (self st) + failed_count (self st).
Proof.
  revert st. induction rs as [|r rs IH]; intros st Hok.
  - exists [], st. simpl. rewrite !app_nil_r, Nat.add_0_r.
    repeat split; auto. lia.
  - simpl in Hok. apply andb_true_iff in Hok as [Hr Hrs].
    destruct (bulk_body_text env total subject body from_name html_body
                delay_seconds batch_size batch_nonzero delay_accepted r st Hr)
      as (res & st1 & Hstep & Hres & Hrec & Hposted & Htrace & Hurl & Hkey
          & Hcount).
    destruct (IH st1 Hrs)
      as (out & st' & Hloop & Hres' & Hrec' & Hposted' & Htrace' & Hurl'
          & Hkey' & Hcount').
    exists (res :: out), st'.
    simpl for_each. unfold bind. fold (step total). unfold step in Hstep.
    unfold step. rewrite Hstep. fold (step total). rewrite Hloop.
    split; [reflexivity|].
    rewrite Hres', Hres, <- app_assoc, Hposted', Hposted, Htrace', Htrace.
    rewrite <- app_assoc. simpl. rewrite Hrec, Hrec'.
    repeat split; try congruence; try lia.
Qed.

(** [send_bulk_email] on a non-empty frame of rows that can all be sent
    to. *)
Lemma send_bulk_email_text (df : DataFrame) (st : State) :
  forallb recipient_ok (rows df) = true ->
  rows df <> [] ->
  exists out st',
    bulk df st = Returned out st'
    /\ results (self st') = out
    /\ map result_recipient out = map row_recipient (rows df)
    /\ posted st' = (posted st + List.length (rows df))%nat
    /\ map kind_of (trace st')
       = map kind_of (trace st)
         ++ paced delay_seconds batch_size (len df) (map fst (rows df))
         ++ [KSummary].
Proof.
  intros Hok Hne.
  unfold bulk, send_bulk_email.
  unfold bind at 1. unfold set_results at 1, update_self at 1.
  match goal with
  | |- context [bind (for_each ?l ?f) _ ?s] =>
      destruct (for_each_text (len df) l s Hok)
        as (out & st1 & Hloop & Hres & Hrec & Hposted & Htrace & _)
  end.
  simpl in Hres, Hposted, Htrace.
  exists out.
  unfold bind at 1. fold (step (len df)). rewrite Hloop.
  unfold _print_summary, get_self, success_rate_of, emit, bind.
  cbv beta. rewrite Hres.
  assert (Hlen : List.length out = List.length (rows df)).
  { rewrite <- (length_map result_recipient), Hrec. apply length_map. }
  destruct (Z.of_nat (List.length out) =? 0) eqn:Hz.
  { apply Z.eqb_eq in Hz. destruct (rows df); [congruence|].
    simpl in Hlen. lia. }
  unfold lift, ret. cbn [self results]. rewrite Hres.
  eexists. split; [reflexivity|]. simpl.
  rewrite map_kind_of_app, Htrace, <- app_assoc.
  repeat split; auto.
Qed.

End Bulk.

(** ** Rows the loader keeps *)

Lemma lookup_set_cell_same (col : string) (v : pyval) (row : Series) :
  lookup col (set_cell col v row) = Some v.
Proof.
  induction row as [|[c x] row IH]; simpl.
  - now rewrite String.eqb_refl.
  - destruct (String.eqb c col) eqn:E; simpl; rewrite String.eqb_sym, E;
      [reflexivity | exact IH].
Qed.

Lemma lookup_set_cell_other (k col : string) (v : pyval) (row : Series) :
  String.eqb k col = false ->
  lookup k (set_cell col v row) = lookup k row.
Proof.
  intros Hk. induction row as [|[c x] row IH]; simpl.
  - now rewrite Hk.
  - destruct (String.eqb c col) eqn:E; simpl.
    + apply String.eqb_eq in E. subst c. now rewrite Hk.
    + now rewrite IH.
Qed.

Lemma lookup_without (k col : string) (row : Series) :
  String.eqb k col = false ->
  lookup k (filter (fun kv => negb (String.eqb (fst kv) col)) row)
  = lookup k row.
Proof.
  intros Hk. induction row as [|[c x] row IH]; simpl; [reflexivity|].
  destruct (String.eqb c col) eqn:E; simpl.
  - apply String.eqb_eq in E. subst c. now rewrite Hk.
  - now rewrite IH.
Qed.

Lemma filter_map_comm {A B : Type} (f : A -> B) (p : B -> bool) (l : list A) :
  filter p (map f l) = map f (filter (fun x => p (f x)) l).
Proof.
  induction l as [|x l IH]; simpl; [reflexivity|].
  destruct (p (f x)); simpl; now rewrite IH.
Qed.

Section KeptRows.

Variable rows1 : list (Z * Series).
Hypothesis all_text :
  forallb (fun r => is_text (cell "email" r)) rows1 = true.

Let mask (r : Z * Series) : pyval :=
  match cell "email" r with
  | PStr s => PBool (email_valid s)
  | _ => PNaN
  end.

Let marked (r : Z * Series) : Z * Series :=
  (fst r, set_cell "email_valid" (mask r) (snd r)).

Let unmarked (r : Z * Series) : Z * Series :=
  (fst r,
   filter (fun kv => negb (String.eqb (fst kv) "email_valid")) (snd r)).

Let chosen (want : bool) (r : Z * Series) : bool :=
  match cell "email_valid" r with
  | PBool b => Bool.eqb b want
  | _ => false
  end.

Lemma text_row (r : Z * Series) :
  is_text (cell "email" r) = true ->
  exists s, lookup "email" (snd r) = Some (PStr s)
            /\ mask r = PBool (email_valid s).
Proof.
  unfold mask, cell. intros H.
  destruct (lookup "email" (snd r)) as [[s| | |]|]; try discriminate H.
  exists s. split; reflexivity.
Qed.

Lemma chosen_marked (want : bool) (r : Z * Series) :
  chosen want (marked r)
  = match mask r with PBool b => Bool.eqb b want | _ => false end.
Proof.
  unfold chosen, marked, cell. simpl. now rewrite lookup_set_cell_same.
Qed.

Lemma row_email_valid_unmarked (r : Z * Series) :
  row_email_valid (unmarked (marked r)) = row_email_valid r.
Proof.
  unfold row_email_valid, unmarked, marked. simpl.
  now rewrite lookup_without, lookup_set_cell_other.
Qed.

Lemma row_email_valid_text (r : Z * Series) :
  is_text (cell "email" r) = true ->
  row_email_valid r = chosen true (marked r).
Proof.
  intros H. destruct (text_row r H) as (s & Hs & Hm).
  rewrite chosen_marked, Hm. unfold row_email_valid. rewrite Hs.
  now destruct (email_valid s).
Qed.

(** Selecting by the mask is selecting the rows with a valid email. *)
Lemma select_valid :
  filter (chosen true) (map marked rows1)
  = map marked (filter row_email_valid rows1).
Proof.
  rewrite filter_map_comm. f_equal.
  apply filter_ext_in. intros r Hr. symmetry.
  apply row_email_valid_text.
  rewrite forallb_forall in all_text. now apply all_text.
Qed.

(** With no row to report, the frame that is kept as it is holds valid
    rows only. *)
Lemma none_invalid :
  filter (chosen false) (map marked rows1) = [] ->
  map marked rows1 = map marked (filter row_email_valid rows1).
Proof.
  rewrite filter_map_comm. intros H. f_equal.
  assert (Hall : forall r, In r rows1 -> row_email_valid r = true).
  { intros r Hr.
    rewrite forallb_forall in all_text. pose proof (all_text r Hr) as Ht.
    rewrite (row_email_valid_text r Ht), chosen_marked.
    destruct (text_row r Ht) as (s & _ & Hm). rewrite Hm.
    destruct (email_valid s) eqn:Ev; [reflexivity|].
    assert (Hin : In (marked r)
                    (map marked
                       (filter (fun x => chosen false (marked x)) rows1))).
    { apply in_map, filter_In. split; [exact Hr|].
      now rewrite chosen_marked, Hm. }
    rewrite H in Hin. destruct Hin. }
  symmetry. apply forallb_filter_id, forallb_forall. exact Hall.
Qed.

Lemma kept_rows_valid :
  forallb row_email_valid
    (map unmarked (map marked (filter row_email_valid rows1))) = true.
Proof.
  apply forallb_forall. intros x Hx.
  apply in_map_iff in Hx as (y & <- & Hy).
  apply in_map_iff in Hy as (r & <- & Hr).
  rewrite row_email_valid_unmarked. now apply filter_In in Hr.
Qed.

Lemma kept_rows_labels (l : list (Z * Series)) :
  map fst (map unmarked (map marked l)) = map fst l.
Proof. rewrite !map_map. reflexivity. Qed.

End KeptRows.

Lemma valid_is_not_missing (l : list (Z * Series)) :
  filter row_email_valid (filter (fun r => negb (is_nan (cell "email" r))) l)
  = filter row_email_valid l.
Proof.
  induction l as [|r l IH]; [reflexivity|]. simpl.
  destruct (is_nan (cell "email" r)) eqn:E; simpl; rewrite IH;
    [|reflexivity].
  unfold row_email_valid. unfold cell in E.
  destruct (lookup "email" (snd r)) as [[s| | |]|]; try discriminate E;
    reflexivity.
Qed.

(** The frame the loader returns holds the rows of the table read whose
    email cell is text of the right shape, in their order and under their
    labels, and no other row. *)
Lemma loader_keeps_valid_rows (read_csv : string -> exn + DataFrame)
    (file_path : string) (df : DataFrame) :
  load_recipients_from_csv read_csv file_path = inr df ->
  exists df0,
    read_csv file_path = inr df0
    /\ forallb row_email_valid (rows df) = true
    /\ map fst (rows df) = map fst (filter row_email_valid (rows df0)).
Proof.
  intros H.
  destruct (load_returns_inv _ _ _ H) as (df0 & mask & Hread & _ & _ & Hm & ->).
  exists df0. split; [exact Hread|].
  unfold str_match in Hm.
  destruct (numeric_dtype df0 "email"
            || negb (forallb (fun r => is_text (cell "email" r))
                       (rows (dropna df0 "email")))) eqn:Hc;
    [discriminate Hm|].
  apply orb_false_iff in Hc as [_ Htext]. apply negb_false_iff in Htext.
  injection Hm as <-.
  set (rows1 := rows (dropna df0 "email")) in *.
  assert (Hrows :
    rows (drop_column
            (let dfm := set_column (dropna df0 "email") "email_valid"
                          (fun r => match cell "email" r with
                                    | PStr s => PBool (email_valid s)
                                    | _ => PNaN
                                    end) in
             if 0 <? len (select dfm "email_valid" false)
             then select dfm "email_valid" true
             else dfm) "email_valid")
    = map (fun r => (fst r,
                     filter (fun kv => negb (String.eqb (fst kv) "email_valid"))
                       (snd r)))
        (map (fun r => (fst r,
                        set_cell "email_valid"
                          (match cell "email" r with
                           | PStr s => PBool (email_valid s)
                           | _ => PNaN
                           end) (snd r)))
           (filter row_email_valid rows1))).
  { cbv zeta. unfold drop_column. cbn [rows]. f_equal.
    destruct (0 <? len (select _ "email_valid" false)) eqn:Hlen.
    - exact (select_valid rows1 Htext).
    - apply (none_invalid rows1 Htext).
      apply Z.ltb_ge in Hlen. unfold len in Hlen.
      unfold select, set_column in Hlen. cbn [rows] in Hlen.
      match type of Hlen with
      | Z.of_nat (List.length ?l) <= 0 =>
          assert (El : l = [])
            by (destruct l; [reflexivity | simpl in Hlen; lia])
      end.
      exact El. }
  rewrite Hrows. split.
  - apply kept_rows_valid.
  - rewrite kept_rows_labels. unfold rows1, dropna. cbn [rows].
    now rewrite valid_is_not_missing.
Qed.

(** The loader does return a frame for a table that has both columns and
    an email column of text and missing values only. *)
Lemma loader_returns (read_csv : string -> exn + DataFrame)
    (file_path : string) (df0 : DataFrame) :
  read_csv file_path = inr df0 ->
  has_column df0 "nama" = true ->
  has_column df0 "email" = true ->
  numeric_dtype df0 "email" = false ->
  forallb (fun r => is_text (cell "email" r) || is_nan (cell "email" r))
    (rows df0) = true ->
  exists df, load_recipients_from_csv read_csv file_path = inr df.
Proof.
  intros Hread Hn He Hnum Hcells.
  unfold load_recipients_from_csv, load_body. rewrite Hread.
  unfold required_columns. simpl filter. rewrite Hn, He.
  cbv beta iota delta [negb].
  assert (Htext : forallb (fun r => is_text (cell "email" r))
                    (rows (dropna df0 "email")) = true).
  { unfold dropna. cbn [rows]. apply forallb_forall. intros r Hr.
    apply filter_In in Hr as [Hr Hnan].
    rewrite forallb_forall in Hcells. specialize (Hcells r Hr).
    destruct (is_nan (cell "email" r)); [discriminate Hnan|].
    now rewrite orb_false_r in Hcells. }
  unfold str_match. rewrite Hnum, Htext. cbn [orb negb].
  eexists. reflexivity.
Qed.

(** C8. Whatever table is read, the frame the loader returns has no row
    with an empty email or an email that fails the pattern: every row holds
    an email that is text and matches, these rows are those of the table
    with such an email (same order, same labels), and every result of a
    broadcast over the frame is about such an email. *)
Theorem loader_excludes_invalid_emails :
  forall (read_csv : string -> exn + DataFrame) (file_path : string)
         (df : DataFrame),
    load_recipients_from_csv read_csv file_path = inr df ->
    forallb row_email_valid (rows df) = true
    /\ (exists df0,
           read_csv file_path = inr df0
           /\ map fst (rows df) = map fst (filter row_email_valid (rows df0)))
    /\ (forall (env : Env) (subject body : string)
               (html_body : option string) (from_name : string)
               (delay_seconds : Q) (batch_size : Z) (st : State)
               (res : SendResult),
           In res (results (self (final_state
                     (send_bulk_email env df subject body html_body
                        from_name delay_seconds batch_size st)))) ->
           exists s, email res = PStr s /\ email_valid s = true).
Proof.
  intros read_csv file_path df Hload.
  destruct (loader_keeps_valid_rows _ _ _ Hload) as (df0 & Hread & Hvalid & Hl).
  split; [exact Hvalid|]. split; [exists df0; now split|].
  intros env subject body html_body from_name delay_seconds batch_size st
    res Hin.
  pose proof (send_bulk_email_results env subject body from_name html_body
                delay_seconds batch_size df st) as Hall.
  rewrite Forall_forall in Hall.
  destruct (Hall res Hin) as (row & Hrow & Hemail).
  rewrite forallb_forall in Hvalid. specialize (Hvalid row Hrow).
  unfold row_email_valid in Hvalid. rewrite Hemail in Hvalid.
  destruct (email res) as [s| | |]; try discriminate Hvalid.
  exists s. now split.
Qed.

(** The table [contacts]: the rows of Budi ([not-an-email]) and Citra (no
    email) are dropped, and a broadcast reports on Alice only. *)
Lemma loader_excludes_invalid_emails_witness :
  email_valid "not-an-email" = false
  /\ load_recipients_from_csv (fun _ => inr contacts) "kontak.csv"
     = inr (mkDataFrame ["nama"; "email"]
              [recipient_row 2 (PStr "Alice") (PStr "alice@example.com")])
  /\ forall res,
       In res (results (self (final_state
                 (send_bulk_email service_ok
                    (mkDataFrame ["nama"; "email"]
                       [recipient_row 2 (PStr "Alice")
                          (PStr "alice@example.com")])
                    "Halo {nama}" "Isi" None "Broadcast System" 1 10
                    fresh)))) ->
       exists s, email res = PStr s /\ email_valid s = true.
Proof.
  split; [reflexivity|]. split; [reflexivity|].
  exact (proj2 (proj2 (loader_excludes_invalid_emails
                         (fun _ => inr contacts) "kontak.csv" _ eq_refl))
           service_ok "Halo {nama}" "Isi" None "Broadcast System" 1%Q 10
           fresh).
Defined.

(** ** Reading the answer of the service *)

(** What [send_single_email] makes of the answer.  For a recipient whose
    name is text it always returns a result.  The result is a success
    carrying the provider's message id exactly when the answer has status
    200, is a JSON object with a true [success], and has a [data] that is
    absent or an object; otherwise it is a failure without message id.  The
    message of
    a failure is the provider's error message (or [Unknown error]) for an
    object answered with another status or without a true [success], the
    text [Request error: ...] or [Unexpected error: ...] of the handler for
    an exception raised by the call or by reading the body, and some text
    of one of these two forms in every remaining case.  A failure does not
    stop the loop: over a non-empty frame of rows with an email and a text
    name, with a batch size other than 0 and a delay [time.sleep] returns
    for, every row gets its call and its result. *)
Lemma send_single_email_reads_the_answer :
  forall (env : Env) (to_email : pyval) (n subject body from_name : string)
         (html_body cc bcc : option string) (st : State),
    (exists payload,
        build_payload (api_key (self st)) to_email (PStr n) subject body
          html_body from_name cc bcc = inr payload
        /\ let o := post env (posted st) (api_url (self st)) payload in
           exists r st',
             send_single_email env to_email (PStr n) subject body html_body
               from_name cc bcc st = Returned r st'
             /\ (accepted o = true ->
                 status r = success
                 /\ message_id r = Some (provider_message_id o))
             /\ (accepted o = false ->
                 status r = failed /\ message_id r = None)
             /\ (refused o = true -> message r = provider_error_message o)
             /\ (forall e, transport_failure o = Some e ->
                           message r = handler_message e)
             /\ (accepted o = false -> refused o = false ->
                 exists text,
                   message r = JStr ("Request error: " ++ text)
                   \/ message r = JStr ("Unexpected error: " ++ text)))
    /\ (forall (df : DataFrame) (delay_seconds : Q) (batch_size : Z),
           forallb recipient_ok (rows df) = true ->
           rows df <> [] ->
           batch_size <> 0 ->
           sleep_returns delay_seconds = true ->
           exists out st',
             send_bulk_email env df subject body html_body from_name
               delay_seconds batch_size st = Returned out st'
             /\ map result_recipient out = map row_recipient (rows df)
             /\ posted st' = (posted st + List.length (rows df))%nat).
Proof.
  intros env to_email n subject body from_name html_body cc bcc st. split.
  - destruct (send_single_email_text env to_email n subject body from_name
                html_body cc bcc st)
      as (payload & Hp & r & st' & Hsend & _ & _ & Hacc & Hrej & Href & Htr
          & Hother).
    exists payload. split; [exact Hp|]. exists r, st'.
    split; [exact Hsend|].
    split; [intros H; destruct (Hacc H) as (H1 & _ & H2 & _); now split|].
    split; [intros H; destruct (Hrej H) as (H1 & H2 & _); now split|].
    split; [intros H; now destruct (Href H)|].
    split; [intros e H; now destruct (Htr e H)|].
    exact Hother.
  - intros df delay_seconds batch_size Hok Hne Hb Hd.
    destruct (send_bulk_email_text env subject body from_name html_body
                delay_seconds batch_size Hb Hd df st Hok Hne)
      as (out & st' & Hbulk & _ & Hrec & Hposted & _).
    exists out, st'. now repeat split.
Qed.

(** The service [service_failing]: the first message is refused with the
    provider's message, and the three recipients of the frame are all
    tried although every send fails. *)
Lemma send_single_email_reads_the_answer_witness :
  (exists r st',
      send_single_email service_failing (PStr "alice@example.com")
        (PStr "Alice") "Halo {nama}" "Isi" None "Broadcast System" None None
        fresh = Returned r st'
      /\ status r = failed
      /\ message r = JStr "Rate limit exceeded")
  /\ (exists out st',
         send_bulk_email service_failing recipients_1_2_3 "Halo {nama}" "Isi"
           None "Broadcast System" 1 10 fresh = Returned out st'
         /\ map result_recipient out = map row_recipient (rows recipients_1_2_3)
         /\ posted st' = 3%nat).
Proof.
  pose proof (send_single_email_reads_the_answer service_failing
                (PStr "alice@example.com") "Alice" "Halo {nama}" "Isi"
                "Broadcast System" None None None fresh) as [Hone Hloop].
  split.
  - destruct Hone as (payload & _ & r & st' & Hsend & _ & Hrej & Href & _).
    exists r, st'. split; [exact Hsend|].
    split; [exact (proj1 (Hrej eq_refl)) | exact (Href eq_refl)].
  - apply (Hloop recipients_1_2_3 1%Q 10); [reflexivity | | |reflexivity];
      discriminate.
Defined.

(** ** Where the code departs from the specification *)

(** A table whose rows all have a malformed email is loaded as a frame
    without rows. *)
Lemma loader_can_return_no_rows :
  load_recipients_from_csv
    (fun _ => inr (mkDataFrame ["nama"; "email"]
                     [recipient_row 0 (PStr "Budi") (PStr "not-an-email")]))
    "kontak.csv"
  = inr (mkDataFrame ["nama"; "email"] []).
Proof. reflexivity. Qed.

(** C1. On a frame without rows [send_bulk_email] does not return a list:
    the summary divides by the number of results and the
    [ZeroDivisionError] leaves the method. *)
Theorem send_bulk_email_on_empty_frame_raises :
  forall (env : Env) (cols : list string) (subject body : string)
         (html_body : option string) (from_name : string)
         (delay_seconds : Q) (batch_size : Z) (st : State),
    send_bulk_email env (mkDataFrame cols []) subject body html_body
      from_name delay_seconds batch_size st
    = Raised (mkExn ZeroDivisionError "division by zero")
        (mkState
           (mkBroadcaster (api_url (self st)) (api_key (self st))
              (sent_count (self st)) (failed_count (self st)) [])
           (posted st) (trace st)).
Proof. reflexivity. Qed.

(** C2. An answer with status 200 and a true [success] is not always
    reported as a success.  When its [data] is [null] the code takes the
    branch of a success and adds one to [sent_count]; reading the message
    id, [result.get('data', {}).get('messageId')], then raises an
    [AttributeError], for the default [{}] only stands in for an absent
    [data]; the handler for [Exception] adds one to [failed_count] and
    returns a failure with the text [Unexpected error: ...] and without
    message id.  One send has been counted both as sent and as failed. *)
Theorem accepted_flag_with_null_data_is_reported_failed :
  send_single_email service_null_data (PStr "alice@example.com")
    (PStr "Alice") "Halo {nama}" "Isi" None "Broadcast System" None None fresh
  = Returned
      (mkSendResult failed (PStr "alice@example.com") (PStr "Alice")
         (JStr "Unexpected error: 'NoneType' object has no attribute 'get'")
         None "2025-01-01T08:00:00")
      (mkState
         (mkBroadcaster "https://script.google.com/macros/s/x/exec" "key"
            1 1 [])
         1
         [EvPost "https://script.google.com/macros/s/x/exec"
            [("endpoint", PStr "send-email"); ("api_key", PStr "key");
             ("to", PStr "alice@example.com"); ("subject", PStr "Halo Alice");
             ("body", PStr "Isi"); ("from_name", PStr "Broadcast System")]]).
Proof. reflexivity. Qed.

(** C3. A name that is not text (the [NaN] pandas reads from an empty
    cell) makes [send_single_email] raise: the [TypeError] of
    [str.replace] arises before the [try] and leaves the method. *)
Theorem send_single_email_raises_on_missing_name :
  forall (env : Env) (to_email : pyval) (subject body : string)
         (html_body : option string) (from_name : string)
         (cc bcc : option string) (st : State),
    send_single_email env to_email PNaN subject body html_body from_name
      cc bcc st
    = Raised (mkExn TypeError "replace() argument 2 must be str, not float")
        st.
Proof. reflexivity. Qed.

(** The loader keeps a row with an empty name, and the broadcast over the
    frame it returns stops at that row: nothing is sent, not even to the
    recipients after it. *)
Lemma blank_name_aborts_the_broadcast :
  load_recipients_from_csv (fun _ => inr contacts_blank_name) "kontak.csv"
  = inr contacts_blank_name
  /\ send_bulk_email service_ok contacts_blank_name "Halo {nama}" "Isi" None
       "Broadcast System" 1 10 fresh
     = Raised (mkExn TypeError "replace() argument 2 must be str, not float")
         fresh.
Proof. split; reflexivity. Qed.

(** C5. With an empty results list the reporter raises
    [ZeroDivisionError]; no summary is produced. *)
Theorem print_summary_on_empty_results_raises :
  forall (url key : string) (sent failed_ : Z) (n : nat) (t : list event),
    _print_summary (mkState (mkBroadcaster url key sent failed_ []) n t)
    = Raised (mkExn ZeroDivisionError "division by zero")
        (mkState (mkBroadcaster url key sent failed_ []) n t).
Proof. reflexivity. Qed.

(** C6. Only the results list is reset.  A broadcast to one recipient who
    is served adds 1 to whatever [sent_count] the broadcaster had before,
    and the summary reports that sum for a total of one email. *)
Theorem counters_are_not_reset :
  forall (url key : string) (sent failed_ : Z) (old : list SendResult)
         (n : nat) (t : list event),
    exists (r : SendResult) (call : event),
      send_bulk_email service_ok one_recipient "Halo {nama}" "Isi" None
        "Broadcast System" 1 10
        (mkState (mkBroadcaster url key sent failed_ old) n t)
      = Returned [r]
          (mkState (mkBroadcaster url key (sent + 1) failed_ [r]) (S n)
             ((t ++ [call])
                ++ [EvSummary
                      (mkSummary 1 (sent + 1) failed_
                         (inject_Z (sent + 1) / inject_Z 1
                          * inject_Z 100)%Q)])).
Proof.
  intros. eexists _, _. reflexivity.
Qed.

(** Two broadcasts in a row from a fresh broadcaster: the second summary
    reports two emails sent out of one, a success rate of 200. *)
Lemma second_broadcast_reports_both :
  let again :=
    send_bulk_email service_ok one_recipient "Halo {nama}" "Isi" None
      "Broadcast System" 1 10
      (final_state
         (send_bulk_email service_ok one_recipient "Halo {nama}" "Isi" None
            "Broadcast System" 1 10 fresh)) in
  List.length (results (self (final_state again))) = 1%nat
  /\ sent_count (self (final_state again)) = 2
  /\ last (trace (final_state again)) (EvSleep 0)
     = EvSummary (mkSummary 1 2 0 200).
Proof. vm_compute. repeat split. Qed.

(** ** Pacing *)

(** C4. The test of the loop reads the index label of the row, not its
    position.  The loader drops the first row of [contacts_first_dropped]
    and returns the three others under the labels 1, 2, 3; with a batch
    size of 2 the broadcast over them pauses after the first recipient,
    whatever the service answers, where a pause after every second
    recipient by position falls after the second. *)
Theorem pauses_follow_labels_not_positions :
  load_recipients_from_csv (fun _ => inr contacts_first_dropped) "kontak.csv"
  = inr recipients_1_2_3
  /\ (forall (env : Env) (subject body : string) (html_body : option string)
             (from_name : string) (st : State),
         exists out st',
           send_bulk_email env recipients_1_2_3 subject body html_body
             from_name 1 2 st = Returned out st'
           /\ map kind_of (trace st')
              = map kind_of (trace st)
                ++ [KPost; KSleep 1; KPost; KPost; KSummary])
  /\ pause_positions 0 [KPost; KSleep 1; KPost; KPost; KSummary] = [1%nat]
  /\ pauses_by_position 2 3 = [2%nat].
Proof.
  split; [reflexivity|]. split; [|split; reflexivity].
  intros env subject body html_body from_name st.
  assert (Hb : 2 <> 0) by discriminate.
  destruct (send_bulk_email_text env subject body from_name html_body 1 2
              Hb eq_refl recipients_1_2_3 st eq_refl)
    as (out & st' & Hbulk & _ & _ & _ & Htrace); [discriminate|].
  exists out, st'. split; [exact Hbulk | exact Htrace].
Qed.

(** On labels that count the rows from 0, the test of the loop holds at
    the positions that are multiples of the batch size and not the last. *)
Lemma paced_cons (delay : Q) (batch_size total i : Z) (l : list Z) :
  paced delay batch_size total (i :: l)
  = KPost :: (if pause_due batch_size total i then [KSleep delay] else [])
    ++ paced delay batch_size total l.
Proof. reflexivity. Qed.

Lemma paced_from (delay : Q) (batch_size total : Z) (m k : nat) :
  pause_positions k
    (paced delay batch_size total (map Z.of_nat (seq k m)))
  = filter (fun p => (Z.of_nat p mod batch_size =? 0)
                     && (Z.of_nat p <? total))
      (seq (S k) m).
Proof.
  revert k. induction m as [|m IH]; intros k; [reflexivity|].
  change (seq k (S m)) with (k :: seq (S k) m).
  change (seq (S k) (S m)) with (S k :: seq (S (S k)) m).
  rewrite map_cons, paced_cons.
  change (pause_positions k (KPost :: ?l)) with (pause_positions (S k) l).
  assert (Hdue : pause_due batch_size total (Z.of_nat k)
                 = (Z.of_nat (S k) mod batch_size =? 0)
                   && (Z.of_nat (S k) <? total)).
  { unfold pause_due. now replace (Z.of_nat k + 1) with (Z.of_nat (S k)) by lia. }
  cbn [filter]. rewrite <- Hdue.
  destruct (pause_due batch_size total (Z.of_nat k)).
  - change (pause_positions (S k) ([KSleep delay] ++ ?l))
      with (S k :: pause_positions (S k) l).
    now rewrite IH.
  - change (pause_positions (S k) ([] ++ ?l)) with (pause_positions (S k) l).
    apply IH.
Qed.

Lemma pause_positions_summary (k : nat) (ks : list kind) :
  pause_positions k (ks ++ [KSummary]) = pause_positions k ks.
Proof.
  revert k. induction ks as [|[|d|] ks IH]; intros k; simpl; auto.
  now rewrite IH.
Qed.


(** Batches of 10 and 25 recipients: two pauses, after the 10th and the
    20th recipient, none after the last. *)
Lemma pauses_for_25_recipients :
  pauses_by_position 10 25 = [10%nat; 20%nat].
Proof. reflexivity. Qed.

(** * Further properties of the code *)

(** ** The shape of an accepted email *)

Section Pattern.

Local Open Scope string_scope.

Lemma matches_plus_cons (cls : ascii -> bool) (p : list Re.item)
    (c : ascii) (s : string) :
  Re.matches (Re.PlusClass cls :: p) (String c s)
  = cls c && (Re.matches (Re.PlusClass cls :: p) s || Re.matches p s).
Proof. reflexivity. Qed.

(** [[...]+] followed by [p]: a non-empty run of the class, then [p]. *)
Lemma matches_plus (cls : ascii -> bool) (p : list Re.item) (s : string) :
  Re.matches (Re.PlusClass cls :: p) s = true
  <-> exists a b, s = a ++ b /\ PyStr.truthy a = true
                  /\ all_chars cls a = true /\ Re.matches p b = true.
Proof.
  induction s as [|c s IH].
  - split; [discriminate|].
    intros (a & b & Hs & Ha & _). destruct a; discriminate.
  - rewrite matches_plus_cons. split.
    + intros H. apply andb_true_iff in H as [Hc H].
      apply orb_true_iff in H as [H|H].
      * apply IH in H as (a & b & -> & Ha & Hcls & Hb).
        exists (String c a), b. simpl. rewrite Hc. now repeat split.
      * exists (String c ""), s. simpl. rewrite Hc. now repeat split.
    + intros (a & b & Hs & Ha & Hcls & Hb).
      destruct a as [|x a]; [discriminate|].
      simpl in Hs. injection Hs as <- ->.
      simpl in Hcls. apply andb_true_iff in Hcls as [Hc Hcls].
      rewrite Hc. simpl. apply orb_true_iff.
      destruct a as [|y a].
      * right. exact Hb.
      * left. apply IH. exists (String y a), b. now repeat split.
Qed.

Lemma matches_lit (c : ascii) (p : list Re.item) (s : string) :
  Re.matches (Re.Lit c :: p) s = true
  <-> exists s', s = String c s' /\ Re.matches p s' = true.
Proof.
  destruct s as [|a s]; simpl.
  - split; [discriminate | intros (s' & H & _); discriminate].
  - rewrite andb_true_iff, Ascii.eqb_eq. split.
    + intros [-> H]. now exists s.
    + intros (s' & H & Hm). injection H as -> ->. now split.
Qed.

Lemma matches_dollar (s : string) :
  Re.matches [Re.Dollar] s = true <-> s = "" \/ s = newline.
Proof.
  simpl. rewrite andb_true_r. unfold Re.at_dollar, newline.
  destruct s as [|c [|d s]]; split; intros H; auto; try discriminate.
  - apply Ascii.eqb_eq in H. subst c. now right.
  - destruct H as [H|H]; [discriminate|]. injection H as ->. reflexivity.
  - destruct H as [H|H]; discriminate.
Qed.

End Pattern.

(** X1. The loader's pattern accepts exactly the texts of the form
    [local@domain.tld], optionally followed by one final line feed, where
    each of the three parts is a non-empty run of characters that are
    neither white space nor [@]. *)
Theorem email_valid_iff :
  forall s : string,
    email_valid s = true
    <-> exists local_ domain tld tail,
          s = (local_ ++ "@" ++ domain ++ "." ++ tld ++ tail)%string
          /\ email_part local_ = true
          /\ email_part domain = true
          /\ email_part tld = true
          /\ (tail = EmptyString \/ tail = newline).
Proof.
  intros s. unfold email_valid, email_pattern, email_part. split.
  - intros H.
    apply matches_plus in H as (l & r1 & -> & Hl & Hlc & H).
    apply matches_lit in H as (r2 & -> & H).
    apply matches_plus in H as (d & r3 & -> & Hd & Hdc & H).
    apply matches_lit in H as (r4 & -> & H).
    apply matches_plus in H as (t & r5 & -> & Ht & Htc & H).
    apply matches_dollar in H.
    exists l, d, t, r5. rewrite Hl, Hlc, Hd, Hdc, Ht, Htc.
    repeat split; auto.
  - intros (l & d & t & r5 & -> & Hl & Hd & Ht & Htail).
    apply andb_true_iff in Hl as [Hl Hlc].
    apply andb_true_iff in Hd as [Hd Hdc].
    apply andb_true_iff in Ht as [Ht Htc].
    apply matches_plus. exists l, ("@" ++ d ++ "." ++ t ++ r5)%string.
    repeat split; auto.
    apply matches_lit. exists (d ++ "." ++ t ++ r5)%string.
    split; [reflexivity|].
    apply matches_plus. exists d, ("." ++ t ++ r5)%string.
    repeat split; auto.
    apply matches_lit. exists (t ++ r5)%string. split; [reflexivity|].
    apply matches_plus. exists t, r5. repeat split; auto.
    now apply matches_dollar.
Qed.

(** ** What the loaders return *)

Lemma filter_set_cell (col : string) (v : pyval) (row : Series) :
  filter (fun kv => negb (String.eqb (fst kv) col)) (set_cell col v row)
  = filter (fun kv => negb (String.eqb (fst kv) col)) row.
Proof.
  induction row as [|[c x] row IH]; simpl.
  - now rewrite String.eqb_refl.
  - destruct (String.eqb c col) eqn:E; simpl; rewrite E; simpl;
      [reflexivity | now rewrite IH].
Qed.

Lemma filter_lacking (col : string) (row : Series) :
  existsb (fun kv => String.eqb (fst kv) col) row = false ->
  filter (fun kv => negb (String.eqb (fst kv) col)) row = row.
Proof.
  induction row as [|[c x] row IH]; simpl; [reflexivity|].
  intros H. apply orb_false_iff in H as [Hc H].
  rewrite Hc. simpl. now rewrite IH.
Qed.

Lemma has_column_filter (c col : string) (l : list string) :
  String.eqb c col = false ->
  existsb (String.eqb c) (filter (fun x => negb (String.eqb x col)) l)
  = existsb (String.eqb c) l.
Proof.
  intros Hc. induction l as [|x l IH]; simpl; [reflexivity|].
  destruct (String.eqb x col) eqn:E; simpl.
  - apply String.eqb_eq in E. subst x. now rewrite Hc.
  - now rewrite IH.
Qed.

Lemma has_column_dropped (col : string) (l : list string) :
  existsb (String.eqb col) (filter (fun x => negb (String.eqb x col)) l)
  = false.
Proof.
  induction l as [|x l IH]; simpl; [reflexivity|].
  destruct (String.eqb x col) eqn:E; simpl; [exact IH|].
  now rewrite String.eqb_sym, E.
Qed.

Lemma filter_columns_app (col : string) (l : list string) :
  filter (fun x => negb (String.eqb x col)) (l ++ [col])
  = filter (fun x => negb (String.eqb x col)) l.
Proof.
  rewrite filter_app. simpl. rewrite String.eqb_refl. simpl.
  apply app_nil_r.
Qed.

(** The frame the statements of the loaders build from the table read. *)
Lemma load_body_result (read : string -> exn + DataFrame)
    (file_path : string) (df : DataFrame) :
  load_body read file_path = inr df ->
  exists df0,
    read file_path = inr df0
    /\ has_column df0 "nama" = true
    /\ has_column df0 "email" = true
    /\ rows df = map (without_column "email_valid")
                   (filter row_email_valid (rows df0))
    /\ columns df
       = filter (fun c => negb (String.eqb c "email_valid")) (columns df0).
Proof.
  unfold load_body. intros H.
  destruct (read file_path) as [e|df0]; [discriminate H|].
  unfold required_columns in H. simpl filter in H.
  destruct (has_column df0 "nama") eqn:Hn, (has_column df0 "email") eqn:He;
    try (simpl in H; discriminate H).
  cbv beta iota delta [negb] in H.
  unfold str_match in H.
  destruct (numeric_dtype df0 "email"
            || negb (forallb (fun r => is_text (cell "email" r))
                       (rows (dropna df0 "email")))) eqn:Hc;
    [discriminate H|].
  apply orb_false_iff in Hc as [_ Htext]. apply negb_false_iff in Htext.
  injection H as <-.
  exists df0. repeat split; auto.
  - set (rows1 := rows (dropna df0 "email")) in *.
    unfold drop_column. cbn [rows].
    match goal with
    | |- map ?f (rows (if ?c then _ else _)) = _ =>
        assert (Hkept :
          rows (if c
                then select (set_column (dropna df0 "email") "email_valid"
                               (fun r => match cell "email" r with
                                         | PStr s => PBool (email_valid s)
                                         | _ => PNaN
                                         end)) "email_valid" true
                else set_column (dropna df0 "email") "email_valid"
                       (fun r => match cell "email" r with
                                 | PStr s => PBool (email_valid s)
                                 | _ => PNaN
                                 end))
          = map (fun r => (fst r,
                           set_cell "email_valid"
                             (match cell "email" r with
                              | PStr s => PBool (email_valid s)
                              | _ => PNaN
                              end) (snd r)))
              (filter row_email_valid rows1));
        [destruct c eqn:Hlen|]
    end.
    + exact (select_valid rows1 Htext).
    + apply (none_invalid rows1 Htext).
      apply Z.ltb_ge in Hlen. unfold len in Hlen.
      unfold select, set_column in Hlen. cbn [rows] in Hlen.
      match type of Hlen with
      | Z.of_nat (List.length ?l) <= 0 =>
          assert (El : l = [])
            by (destruct l; [reflexivity | simpl in Hlen; lia])
      end.
      exact El.
    + rewrite Hkept, map_map. unfold rows1, dropna. cbn [rows].
      rewrite valid_is_not_missing.
      apply map_ext. intros r. unfold without_column. cbn [fst snd].
      now rewrite filter_set_cell.
  - unfold drop_column. cbn [columns].
    match goal with
    | |- filter _ (columns (if ?c then _ else _)) = _ => destruct c
    end; unfold select, set_column, dropna; cbn [columns];
      (destruct (has_column _ "email_valid");
       [reflexivity | apply filter_columns_app]).
Qed.

Lemma load_csv_body (read_csv : string -> exn + DataFrame)
    (file_path : string) (df : DataFrame) :
  load_recipients_from_csv read_csv file_path = inr df ->
  load_body read_csv file_path = inr df.
Proof.
  unfold load_recipients_from_csv.
  destruct (load_body read_csv file_path) as [e|df'];
    [destruct (is_file_not_found e); discriminate | trivial].
Qed.

Lemma load_excel_body (read_excel : string -> pyval -> exn + DataFrame)
    (file_path : string) (sheet_name : pyval) (df : DataFrame) :
  load_recipients_from_excel read_excel file_path sheet_name = inr df ->
  load_body (fun path => read_excel path sheet_name) file_path = inr df.
Proof.
  unfold load_recipients_from_excel.
  destruct (load_body _ file_path) as [e|df'];
    [destruct (is_file_not_found e); discriminate | trivial].
Qed.

Lemma row_email_valid_without (r : Z * Series) :
  row_email_valid (without_column "email_valid" r) = row_email_valid r.
Proof.
  unfold row_email_valid, without_column. cbn [snd].
  now rewrite lookup_without.
Qed.

Lemma forallb_valid_without (l : list (Z * Series)) :
  forallb row_email_valid
    (map (without_column "email_valid") (filter row_email_valid l)) = true.
Proof.
  apply forallb_forall. intros x Hx.
  apply in_map_iff in Hx as (r & <- & Hr).
  rewrite row_email_valid_without. now apply filter_In in Hr.
Qed.

Lemma map_without_lacking (l : list (Z * Series)) :
  forallb (lacks_column "email_valid") l = true ->
  map (without_column "email_valid") l = l.
Proof.
  induction l as [|[i row] l IH]; simpl; [reflexivity|].
  intros H. apply andb_true_iff in H as [Hr Hl].
  unfold lacks_column in Hr. cbn [snd] in Hr. apply negb_true_iff in Hr.
  unfold without_column at 1. cbn [fst snd].
  now rewrite (filter_lacking _ _ Hr), IH.
Qed.

(** X2. A frame returned by the CSV loader holds the rows of the table
    read whose email is text of the right shape, in their order, each
    with its label, its name and its other cells as they were read, less a
    cell in a column named [email_valid]: the loader uses that column for
    its mask and removes it, also when the file already had one.  The
    frame has the columns [nama] and [email] and no column
    [email_valid]. *)
Theorem csv_loader_returns_valid_rows_unchanged :
  forall (read_csv : string -> exn + DataFrame) (file_path : string)
         (df : DataFrame),
    load_recipients_from_csv read_csv file_path = inr df ->
    exists df0,
      read_csv file_path = inr df0
      /\ rows df = map (without_column "email_valid")
                     (filter row_email_valid (rows df0))
      /\ (forallb (lacks_column "email_valid") (rows df0) = true ->
          rows df = filter row_email_valid (rows df0))
      /\ columns df
         = filter (fun c => negb (String.eqb c "email_valid")) (columns df0)
      /\ has_column df "nama" = true
      /\ has_column df "email" = true
      /\ has_column df "email_valid" = false.
Proof.
  intros read_csv file_path df H. apply load_csv_body in H.
  destruct (load_body_result _ _ _ H) as (df0 & Hread & Hn & He & Hrows & Hcols).
  exists df0. split; [exact Hread|]. split; [exact Hrows|].
  split; [|split; [exact Hcols|]].
  - intros Hlack. rewrite Hrows. apply map_without_lacking.
    apply forallb_forall. intros r Hr. apply filter_In in Hr as [Hr _].
    rewrite forallb_forall in Hlack. now apply Hlack.
  - unfold has_column. rewrite Hcols.
    rewrite !has_column_filter by reflexivity.
    repeat split; auto. apply has_column_dropped.
Qed.

(** The table [contacts], read with a column [email_valid] of its own. *)
Lemma csv_loader_returns_valid_rows_unchanged_witness :
  exists df0,
    @inr exn DataFrame
      (mkDataFrame ["nama"; "email"; "email_valid"]
         [(0, [("nama", PStr "Budi"); ("email", PStr "not-an-email");
               ("email_valid", PStr "ya")]);
          (1, [("nama", PStr "Alice"); ("email", PStr "alice@example.com");
               ("email_valid", PStr "tidak")])])
    = inr df0
    /\ rows (mkDataFrame ["nama"; "email"]
               [recipient_row 1 (PStr "Alice") (PStr "alice@example.com")])
       = map (without_column "email_valid")
           (filter row_email_valid (rows df0))
    /\ (forallb (lacks_column "email_valid") (rows df0) = true ->
        rows (mkDataFrame ["nama"; "email"]
                [recipient_row 1 (PStr "Alice") (PStr "alice@example.com")])
        = filter row_email_valid (rows df0))
    /\ columns (mkDataFrame ["nama"; "email"]
                  [recipient_row 1 (PStr "Alice") (PStr "alice@example.com")])
       = filter (fun c => negb (String.eqb c "email_valid")) (columns df0)
    /\ has_column (mkDataFrame ["nama"; "email"]
                     [recipient_row 1 (PStr "Alice")
                        (PStr "alice@example.com")]) "nama" = true
    /\ has_column (mkDataFrame ["nama"; "email"]
                     [recipient_row 1 (PStr "Alice")
                        (PStr "alice@example.com")]) "email" = true
    /\ has_column (mkDataFrame ["nama"; "email"]
                     [recipient_row 1 (PStr "Alice")
                        (PStr "alice@example.com")]) "email_valid" = false.
Proof.
  exact (csv_loader_returns_valid_rows_unchanged
           (fun _ => inr (mkDataFrame ["nama"; "email"; "email_valid"]
              [(0, [("nama", PStr "Budi"); ("email", PStr "not-an-email");
                    ("email_valid", PStr "ya")]);
               (1, [("nama", PStr "Alice");
                    ("email", PStr "alice@example.com");
                    ("email_valid", PStr "tidak")])]))
           "kontak.csv" _ eq_refl).
Defined.

(** X4. The Excel loader cleans the sheet it reads as the CSV loader
    cleans a file: a frame it returns holds the rows of the sheet whose
    email is text of the right shape, in their order and unchanged but for
    a cell in a column [email_valid], and every one of its rows has such
    an email. *)
Theorem excel_loader_returns_valid_rows :
  forall (read_excel : string -> pyval -> exn + DataFrame)
         (file_path : string) (sheet_name : pyval) (df : DataFrame),
    load_recipients_from_excel read_excel file_path sheet_name = inr df ->
    exists df0,
      read_excel file_path sheet_name = inr df0
      /\ rows df = map (without_column "email_valid")
                     (filter row_email_valid (rows df0))
      /\ forallb row_email_valid (rows df) = true
      /\ has_column df "nama" = true
      /\ has_column df "email" = true.
Proof.
  intros read_excel file_path sheet_name df H. apply load_excel_body in H.
  destruct (load_body_result _ _ _ H) as (df0 & Hread & Hn & He & Hrows & Hcols).
  exists df0. split; [exact Hread|]. split; [exact Hrows|]. split.
  - rewrite Hrows. apply forallb_valid_without.
  - unfold has_column. rewrite Hcols.
    rewrite !has_column_filter by reflexivity. now split.
Qed.

(** The first sheet of a workbook that holds the table [contacts]. *)
Lemma excel_loader_returns_valid_rows_witness :
  exists df0,
    @inr exn DataFrame contacts = inr df0
    /\ rows (mkDataFrame ["nama"; "email"]
               [recipient_row 2 (PStr "Alice") (PStr "alice@example.com")])
       = map (without_column "email_valid")
           (filter row_email_valid (rows df0))
    /\ forallb row_email_valid
         (rows (mkDataFrame ["nama"; "email"]
                  [recipient_row 2 (PStr "Alice")
                     (PStr "alice@example.com")])) = true
    /\ has_column (mkDataFrame ["nama"; "email"]
                     [recipient_row 2 (PStr "Alice")
                        (PStr "alice@example.com")]) "nama" = true
    /\ has_column (mkDataFrame ["nama"; "email"]
                     [recipient_row 2 (PStr "Alice")
                        (PStr "alice@example.com")]) "email" = true.
Proof.
  exact (excel_loader_returns_valid_rows
           (fun _ _ => inr contacts) "kontak.xlsx" (PInt 0) _ eq_refl).
Defined.

Lemma valid_row_is_text (r : Z * Series) :
  row_email_valid r = true -> is_text (cell "email" r) = true.
Proof.
  unfold row_email_valid, cell.
  destruct (lookup "email" (snd r)) as [[s| | |]|]; try discriminate.
  reflexivity.
Qed.

Lemma filter_all {A : Type} (f : A -> bool) (l : list A) :
  forallb f l = true -> filter f l = l.
Proof.
  induction l as [|x l IH]; simpl; [reflexivity|].
  intros H. apply andb_true_iff in H as [Hx Hl]. now rewrite Hx, IH.
Qed.

Lemma filter_twice {A : Type} (f : A -> bool) (l : list A) :
  filter f (filter f l) = filter f l.
Proof.
  apply filter_all, forallb_forall. intros x Hx.
  now apply filter_In in Hx.
Qed.

Lemma without_column_twice (col : string) (r : Z * Series) :
  without_column col (without_column col r) = without_column col r.
Proof.
  unfold without_column. cbn [fst snd]. now rewrite filter_twice.
Qed.

(** X3. Loading is idempotent: when the table read is a frame the CSV
    loader has returned before, the loader returns it unchanged (no row is
    dropped, no column is lost), under whatever path. *)
Theorem csv_loader_is_idempotent :
  forall (read_csv : string -> exn + DataFrame) (file_path : string)
         (df : DataFrame),
    load_recipients_from_csv read_csv file_path = inr df ->
    forall again : string,
      load_recipients_from_csv (fun _ => inr df) again = inr df.
Proof.
  intros read_csv file_path df H again. apply load_csv_body in H.
  destruct (load_body_result _ _ _ H) as (df0 & _ & Hn & He & Hrows & Hcols).
  assert (Hvalid : forallb row_email_valid (rows df) = true).
  { rewrite Hrows. apply forallb_valid_without. }
  assert (Hn' : has_column df "nama" = true).
  { unfold has_column. rewrite Hcols.
    now rewrite has_column_filter by reflexivity. }
  assert (He' : has_column df "email" = true).
  { unfold has_column. rewrite Hcols.
    now rewrite has_column_filter by reflexivity. }
  assert (Hnum : numeric_dtype df "email" = false).
  { unfold numeric_dtype. destruct (rows df) as [|r l]; [reflexivity|].
    simpl in Hvalid. apply andb_true_iff in Hvalid as [Hr _].
    simpl. now rewrite (valid_row_is_text r Hr). }
  assert (Hcells : forallb (fun r => is_text (cell "email" r)
                                     || is_nan (cell "email" r))
                     (rows df) = true).
  { apply forallb_forall. intros r Hr.
    rewrite forallb_forall in Hvalid.
    now rewrite (valid_row_is_text r (Hvalid r Hr)). }
  destruct (loader_returns (fun _ => inr df) again df eq_refl Hn' He' Hnum
              Hcells) as [df2 Hload].
  rewrite Hload. f_equal.
  apply load_csv_body in Hload.
  destruct (load_body_result _ _ _ Hload)
    as (df1 & Hread & _ & _ & Hrows2 & Hcols2).
  injection Hread as <-.
  rewrite (filter_all _ _ Hvalid) in Hrows2.
  rewrite Hrows, map_map in Hrows2.
  rewrite (map_ext _ _ (without_column_twice "email_valid")) in Hrows2.
  rewrite <- Hrows in Hrows2.
  rewrite Hcols, filter_twice, <- Hcols in Hcols2.
  destruct df2 as [c2 r2], df as [c r]. simpl in Hrows2, Hcols2.
  now subst.
Qed.

(** The frame loaded from the table [contacts], loaded again. *)
Lemma csv_loader_is_idempotent_witness :
  load_recipients_from_csv
    (fun _ => inr (mkDataFrame ["nama"; "email"]
                     [recipient_row 2 (PStr "Alice")
                        (PStr "alice@example.com")]))
    "bersih.csv"
  = inr (mkDataFrame ["nama"; "email"]
           [recipient_row 2 (PStr "Alice") (PStr "alice@example.com")]).
Proof.
  exact (csv_loader_is_idempotent (fun _ => inr contacts) "kontak.csv" _
           eq_refl "bersih.csv").
Defined.

(** ** The health check *)


(** ** The broadcast on well-formed input *)




(** ** Batch sizes that are not positive *)

Section ZeroBatch.

Variable env : Env.
Variables subject body from_name : string.
Variable html_body : option string.
Variable delay_seconds : Q.

(** With a batch size of 0 the first turn of the loop sends its email,
    records the result and then fails in the test of the pause. *)
Lemma bulk_body_zero_batch (total : Z) (r : Z * Series) (st : State) :
  recipient_ok r = true ->
  exists res e st',
    bulk_body env total subject body html_body from_name delay_seconds 0 r st
    = Raised e st'
    /\ exc_kind e = ZeroDivisionError
    /\ results (self st') = results (self st) ++ [res]
    /\ result_recipient res = row_recipient r
    /\ posted st' = S (posted st)
    /\ map kind_of (trace st') = map kind_of (trace st) ++ [KPost].
Proof.
  unfold recipient_ok, row_recipient, cell. intros Hok.
  destruct (lookup "email" (snd r)) as [e|] eqn:He; [|discriminate Hok].
  destruct (lookup "nama" (snd r)) as [[n| | |]|] eqn:Hn;
    try discriminate Hok.
  destruct (send_single_email_text env e n subject body from_name html_body
              None None st)
    as (payload & _ & res & st1 & Hsend & (Hem & Hnm & _)
        & (Hres & _ & _ & Hposted & Htrace) & _).
  unfold bulk_body, getitem. rewrite He, Hn.
  unfold bind, lift, ret. rewrite Hsend.
  unfold append_result, update_self, py_mod, raise. simpl.
  eexists res, _, _. split; [reflexivity|].
  cbn [self results posted trace].
  unfold result_recipient. rewrite Hem, Hnm, Hres, Htrace, map_kind_of_app.
  now repeat split.
Qed.

End ZeroBatch.



Lemma mod_opp_is_zero (a b : Z) : (a mod (- b) =? 0) = (a mod b =? 0).
Proof.
  destruct (Z.eq_dec b 0) as [->|Hb]; [reflexivity|].
  assert (Hb' : - b <> 0) by lia.
  destruct (a mod b =? 0) eqn:E.
  - apply Z.eqb_eq in E. apply Z.eqb_eq.
    apply Z.mod_divide in E; [|exact Hb].
    apply Z.mod_divide; [exact Hb'|]. now apply Z.divide_opp_l.
  - apply Z.eqb_neq in E. apply Z.eqb_neq. intros H. apply E.
    apply Z.mod_divide in H; [|exact Hb'].
    apply Z.mod_divide; [exact Hb|].
    exact (proj1 (Z.divide_opp_l b a) H).
Qed.

Lemma for_each_ext {A : Type} (f g : A -> M unit) (l : list A) :
  (forall x st, f x st = g x st) ->
  forall st, for_each l f st = for_each l g st.
Proof.
  intros Hfg. induction l as [|x l IH]; intros st; [reflexivity|].
  simpl. unfold bind. rewrite Hfg.
  destruct (g x st) as [[] st1|e st1]; [apply IH | reflexivity].
Qed.

Lemma bulk_body_opp (env : Env) (total : Z) (subject body : string)
    (html_body : option string) (from_name : string) (delay_seconds : Q)
    (batch_size : Z) (r : Z * Series) (st : State) :
  bulk_body env total subject body html_body from_name delay_seconds
    (- batch_size) r st
  = bulk_body env total subject body html_body from_name delay_seconds
      batch_size r st.
Proof.
  unfold bulk_body, bind, lift, ret.
  destruct (getitem (snd r) "email") as [e|em]; [reflexivity|].
  destruct (getitem (snd r) "nama") as [e|nm]; [reflexivity|].
  destruct (send_single_email env em nm subject body html_body from_name
              None None st) as [res st1|e st1]; [|reflexivity].
  unfold append_result, update_self, py_mod.
  replace (- batch_size =? 0) with (batch_size =? 0)
    by (destruct batch_size; reflexivity).
  destruct (batch_size =? 0); [reflexivity|].
  now rewrite mod_opp_is_zero.
Qed.

(** X9. The sign of the batch size does not matter: a broadcast with the
    batch size [- b] does what a broadcast with the batch size [b] does
    (the same calls, pauses, results, counters, and the same exception if
    any), because [%] yields 0 for both when [b] divides the position. *)
Theorem negative_batch_size_paces_like_positive :
  forall (env : Env) (df : DataFrame) (subject body : string)
         (html_body : option string) (from_name : string)
         (delay_seconds : Q) (batch_size : Z) (st : State),
    send_bulk_email env df subject body html_body from_name delay_seconds
      (- batch_size) st
    = send_bulk_email env df subject body html_body from_name delay_seconds
        batch_size st.
Proof.
  intros. unfold send_bulk_email.
  unfold bind at 1 5. unfold set_results at 1 2, update_self at 1 2.
  unfold bind at 1 4.
  rewrite (for_each_ext _ _ (rows df)
             (bulk_body_opp env (len df) subject body html_body from_name
                delay_seconds batch_size)).
  reflexivity.
Qed.

(** ** Counters and results *)

Lemma count_status_app (s : send_status) (l : list SendResult)
    (r : SendResult) :
  count_status s (l ++ [r]) = count_status s l + count_status s [r].
Proof.
  unfold count_status. rewrite filter_app, length_app. lia.
Qed.

Section ContractService.

Variable env : Env.
Hypothesis contract :
  forall k url payload, contract_answer (post env k url payload) = true.

Variables subject body from_name : string.
Variable html_body : option string.
Variable delay_seconds : Q.
Variable batch_size : Z.
Hypothesis batch_nonzero : batch_size <> 0.
Hypothesis delay_accepted : sleep_returns delay_seconds = true.

(** One turn of the loop counts the result it adds, once. *)
Lemma bulk_body_counts (total : Z) (r : Z * Series) (st : State) :
  recipient_ok r = true ->
  exists res st',
    bulk_body env total subject body html_body from_name delay_seconds
      batch_size r st = Returned tt st'
    /\ results (self st') = results (self st) ++ [res]
    /\ sent_count (self st')
       = sent_count (self st) + count_status success [res]
    /\ failed_count (self st')
       = failed_count (self st) + count_status failed [res].
Proof.
  unfold recipient_ok. intros Hok.
  destruct (lookup "email" (snd r)) as [e|] eqn:He; [|discriminate Hok].
  destruct (lookup "nama" (snd r)) as [[n| | |]|] eqn:Hn;
    try discriminate Hok.
  destruct (send_single_email_text env e n subject body from_name html_body
              None None st)
    as (payload & _ & res & st1 & Hsend & _ & (Hres & _) & Hacc & Hrej
        & Href & Htr & _).
  assert (Hcount :
    sent_count (self st1) = sent_count (self st) + count_status success [res]
    /\ failed_count (self st1)
       = failed_count (self st) + count_status failed [res]).
  { pose proof (contract (posted st) (api_url (self st)) payload) as Hc.
    unfold contract_answer in Hc.
    destruct (accepted (post env (posted st) (api_url (self st)) payload)).
    - destruct (Hacc eq_refl) as (Hs & _ & _ & H1 & H2).
      unfold count_status, has_status. simpl. rewrite Hs. simpl. lia.
    - destruct (Hrej eq_refl) as (Hs & _).
      assert (H : sent_count (self st1) = sent_count (self st)
                  /\ failed_count (self st1) = failed_count (self st) + 1).
      { destruct (refused (post env (posted st) (api_url (self st)) payload)).
        - now destruct (Href eq_refl) as (_ & H1 & H2).
        - simpl in Hc.
          destruct (transport_failure
                      (post env (posted st) (api_url (self st)) payload))
            as [ex|] eqn:Hx; [|discriminate Hc].
          now destruct (Htr ex eq_refl) as (_ & H1 & H2). }
      unfold count_status, has_status. simpl. rewrite Hs. simpl. lia. }
  unfold bulk_body, getitem. rewrite He, Hn.
  unfold bind, lift, ret. rewrite Hsend.
  unfold append_result, update_self, py_mod.
  apply Z.eqb_neq in batch_nonzero. rewrite batch_nonzero.
  destruct (((fst r + 1) mod batch_size =? 0) && (fst r + 1 <? total)).
  - rewrite (time_sleep_returns _ delay_accepted). unfold emit.
    eexists res, _. split; [reflexivity|]. cbn [self results sent_count
      failed_count]. now rewrite Hres.
  - eexists res, _. split; [reflexivity|]. cbn [self results sent_count
      failed_count]. now rewrite Hres.
Qed.

Lemma for_each_counts (total : Z) (rs : list (Z * Series)) (st : State) :
  forallb recipient_ok rs = true ->
  exists out st',
    for_each rs
      (bulk_body env total subject body html_body from_name delay_seconds
         batch_size) st = Returned tt st'
    /\ results (self st') = results (self st) ++ out
    /\ sent_count (self st')
       = sent_count (self st) + count_status success out
    /\ failed_count (self st')
       = failed_count (self st) + count_status failed out.
Proof.
  revert st. induction rs as [|r rs IH]; intros st Hok.
  - exists [], st. simpl. rewrite app_nil_r. unfold count_status. simpl.
    repeat split; lia.
  - simpl in Hok. apply andb_true_iff in Hok as [Hr Hrs].
    destruct (bulk_body_counts total r st Hr)
      as (res & st1 & Hstep & Hres & Hsent & Hfailed).
    destruct (IH st1 Hrs) as (out & st' & Hloop & Hres' & Hsent' & Hfailed').
    exists (res :: out), st'. simpl for_each. unfold bind.
    rewrite Hstep, Hloop. split; [reflexivity|].
    rewrite Hres', Hres, <- app_assoc, Hsent', Hsent, Hfailed', Hfailed.
    split; [reflexivity|].
    change (res :: out) with ([res] ++ out).
    unfold count_status. rewrite !filter_app, !length_app. lia.
Qed.

End ContractService.



(** ** The payload and the calls of a broadcast *)

Lemma build_payload_needs_text (key : string) (to_email to_name : pyval)
    (subject body from_name : string) (html_body cc bcc : option string)
    (p : Payload) :
  build_payload key to_email to_name subject body html_body from_name cc bcc
  = inr p ->
  exists n, to_name = PStr n.
Proof.
  unfold build_payload, py_replace.
  destruct to_name as [n| | |]; try discriminate. now exists n.
Qed.

Lemma build_payload_fields (key : string) (to_email : pyval)
    (n subject body from_name : string) (html_body cc bcc : option string)
    (p : Payload) :
  build_payload key to_email (PStr n) subject body html_body from_name cc bcc
  = inr p ->
  lookup "endpoint" p = Some (PStr "send-email")
  /\ lookup "api_key" p = Some (PStr key)
  /\ lookup "to" p = Some to_email
  /\ lookup "subject" p = Some (PStr (PyStr.replace subject "{nama}" n))
  /\ lookup "body" p = Some (PStr (PyStr.replace body "{nama}" n))
  /\ lookup "from_name" p = Some (PStr from_name)
  /\ lookup "html_body" p
     = optional_value
         (match html_body with
          | Some h => if PyStr.truthy h
                      then Some (PyStr.replace h "{nama}" n)
                      else None
          | None => None
          end)
  /\ lookup "cc" p = optional_value cc
  /\ lookup "bcc" p = optional_value bcc.
Proof.
  unfold build_payload, personalize_html, py_replace.
  remember (PyStr.replace subject "{nama}" n) as subject' eqn:E1.
  remember (PyStr.replace body "{nama}" n) as body' eqn:E2. clear E1 E2.
  destruct html_body as [h|];
    [remember (PyStr.replace h "{nama}" n) as h' eqn:E3; clear E3;
     destruct (PyStr.truthy h)|];
    intros H; injection H as <-; unfold optional_field, optional_value;
    repeat match goal with
           | |- context [PyStr.truthy ?x] => destruct (PyStr.truthy x)
           | |- context [match ?o with Some _ => _ | None => _ end] =>
               destruct o
           end;
    repeat split; reflexivity.
Qed.

Lemma optional_value_text (o : option string) (v : pyval) :
  optional_value o = Some v ->
  exists s, v = PStr s /\ PyStr.truthy s = true.
Proof.
  unfold optional_value. destruct o as [s|]; [|discriminate].
  destruct (PyStr.truthy s) eqn:E; [|discriminate].
  intros H. injection H as <-. now exists s.
Qed.

(** X11. For a name that is text the payload is always built.  It holds
    the endpoint [send-email], the key of the broadcaster, the address as
    given, the personalised subject and body and the sender name; [cc] and
    [bcc] are passed on unless empty or absent, and the personalised HTML
    body unless the template or the result is empty.  An optional key is
    never present with an empty value. *)
Theorem payload_fields :
  forall (key : string) (to_email : pyval) (n subject body from_name : string)
         (html_body cc bcc : option string),
    exists p,
      build_payload key to_email (PStr n) subject body html_body from_name
        cc bcc = inr p
      /\ lookup "endpoint" p = Some (PStr "send-email")
      /\ lookup "api_key" p = Some (PStr key)
      /\ lookup "to" p = Some to_email
      /\ lookup "subject" p = Some (PStr (PyStr.replace subject "{nama}" n))
      /\ lookup "body" p = Some (PStr (PyStr.replace body "{nama}" n))
      /\ lookup "from_name" p = Some (PStr from_name)
      /\ lookup "html_body" p
         = optional_value
             (match html_body with
              | Some h => if PyStr.truthy h
                          then Some (PyStr.replace h "{nama}" n)
                          else None
              | None => None
              end)
      /\ lookup "cc" p = optional_value cc
      /\ lookup "bcc" p = optional_value bcc
      /\ (forall k v,
             In k ["html_body"; "cc"; "bcc"] ->
             lookup k p = Some v ->
             exists s, v = PStr s /\ PyStr.truthy s = true).
Proof.
  intros key to_email n subject body from_name html_body cc bcc.
  assert (Hbuilt : exists p,
             build_payload key to_email (PStr n) subject body html_body
               from_name cc bcc = inr p).
  { unfold build_payload, personalize_html, py_replace.
    destruct html_body as [h|]; [destruct (PyStr.truthy h)|]; eexists;
      reflexivity. }
  destruct Hbuilt as [p Hp].
  exists p. split; [exact Hp|].
  destruct (build_payload_fields _ _ _ _ _ _ _ _ _ _ Hp)
    as (H1 & H2 & H3 & H4 & H5 & H6 & H7 & H8 & H9).
  repeat (split; [assumption|]).
  intros k v [<-|[<-|[<-|[]]]] Hk.
  - rewrite H7 in Hk. exact (optional_value_text _ _ Hk).
  - rewrite H8 in Hk. exact (optional_value_text _ _ Hk).
  - rewrite H9 in Hk. exact (optional_value_text _ _ Hk).
Qed.

Section Calls.

Variable env : Env.
Variables subject body from_name : string.
Variable html_body : option string.

(** A send makes at most one outbound call, to the address of the
    broadcaster and with a payload built for its recipient. *)
Lemma send_single_email_calls (to_email to_name : pyval)
    (cc bcc : option string) (st : State) :
  trace (final_state
           (send_single_email env to_email to_name subject body html_body
              from_name cc bcc st)) = trace st
  \/ exists p,
       build_payload (api_key (self st)) to_email to_name subject body
         html_body from_name cc bcc = inr p
       /\ trace (final_state
                   (send_single_email env to_email to_name subject body
                      html_body from_name cc bcc st))
          = trace st ++ [EvPost (api_url (self st)) p].
Proof.
  run_send.
  destruct (build_payload (api_key (self st)) to_email to_name subject body
              html_body from_name cc bcc) as [e|p]; [left; reflexivity|].
  right. exists p. split; [reflexivity|].
  split_matches; reflexivity.
Qed.

Variable delay_seconds : Q.
Variable batch_size : Z.

(** One turn of the loop adds to the trace at most one call, which is a
    call of the broadcast, and at most one pause. *)
Lemma bulk_body_calls (total : Z) (all : list (Z * Series))
    (r : Z * Series) (st : State) :
  In r all ->
  exists new,
    trace (final_state
             (bulk_body env total subject body html_body from_name
                delay_seconds batch_size r st)) = trace st ++ new
    /\ Forall (broadcast_call (api_url (self st)) (api_key (self st)) all) new.
Proof.
  intros Hin. unfold bulk_body, getitem.
  destruct (lookup "email" (snd r)) as [e|] eqn:He;
    [|exists []; split; [symmetry; apply app_nil_r | constructor]].
  destruct (lookup "nama" (snd r)) as [nm|] eqn:Hn;
    [|exists []; split; [symmetry; apply app_nil_r | constructor]].
  unfold bind, lift, ret.
  pose proof (send_single_email_calls e nm None None st) as Hcalls.
  assert (Hnew : exists new,
             trace (final_state
                      (send_single_email env e nm subject body html_body
                         from_name None None st)) = trace st ++ new
             /\ Forall (broadcast_call (api_url (self st))
                          (api_key (self st)) all) new).
  { destruct Hcalls as [Hsame | (p & Hp & Hcall)].
    - exists []. rewrite Hsame. split; [symmetry; apply app_nil_r|constructor].
    - exists [EvPost (api_url (self st)) p]. split; [exact Hcall|].
      constructor; [|constructor].
      destruct (build_payload_needs_text _ _ _ _ _ _ _ _ _ _ Hp) as [n ->].
      destruct (build_payload_fields _ _ _ _ _ _ _ _ _ _ Hp)
        as (H1 & H2 & H3 & _ & _ & _ & _ & H8 & H9).
      simpl. repeat split; auto.
      exists r. split; [exact Hin|]. now rewrite H3. }
  destruct Hnew as (new & Htrace & Hall).
  destruct (send_single_email env e nm subject body html_body from_name
              None None st) as [res st1|ex st1]; simpl in Htrace;
    [|exists new; now split].
  unfold append_result, update_self, py_mod, time_sleep, emit, raise.
  split_matches.
  all: try (exists new; split; [exact Htrace | exact Hall]).
  exists (new ++ [EvSleep delay_seconds]). rewrite Htrace, <- app_assoc.
  split; [reflexivity|]. apply Forall_app. split; [exact Hall|].
  constructor; [exact I|constructor].
Qed.

End Calls.

Section BroadcastCalls.

Variable env : Env.
Variables subject body from_name : string.
Variable html_body : option string.
Variable delay_seconds : Q.
Variable batch_size : Z.

Let step (total : Z) :=
  bulk_body env total subject body html_body from_name delay_seconds
    batch_size.

(** The loop never changes the address or the key of the broadcaster. *)
Lemma bulk_body_keeps_address (total : Z) (r : Z * Series) (st : State) :
  api_url (self (final_state (step total r st))) = api_url (self st)
  /\ api_key (self (final_state (step total r st))) = api_key (self st).
Proof.
  unfold step, bulk_body, getitem.
  destruct (lookup "email" (snd r)) as [e|]; [|now split].
  destruct (lookup "nama" (snd r)) as [nm|]; [|now split].
  unfold bind, lift, ret.
  pose proof (send_single_email_frame env e nm subject body from_name
                html_body None None st) as (_ & Hurl & Hkey & _).
  destruct (send_single_email env e nm subject body html_body from_name
              None None st) as [res st1|ex st1]; simpl in Hurl, Hkey;
    [|now split].
  unfold append_result, update_self, py_mod, time_sleep, emit, raise.
  split_matches; now split.
Qed.

Lemma for_each_calls (total : Z) (all rs : list (Z * Series)) (st : State) :
  incl rs all ->
  exists new,
    trace (final_state (for_each rs (step total) st)) = trace st ++ new
    /\ Forall (broadcast_call (api_url (self st)) (api_key (self st)) all) new
    /\ api_url (self (final_state (for_each rs (step total) st)))
       = api_url (self st)
    /\ api_key (self (final_state (for_each rs (step total) st)))
       = api_key (self st).
Proof.
  revert st. induction rs as [|r rs IH]; intros st Hincl.
  - exists []. simpl. rewrite app_nil_r. repeat split. constructor.
  - simpl for_each. rewrite final_state_bind.
    destruct (bulk_body_calls env subject body from_name html_body
                delay_seconds batch_size total all r st
                (Hincl r (or_introl eq_refl))) as (new1 & Htrace1 & Hall1).
    destruct (bulk_body_keeps_address total r st) as [Hurl1 Hkey1].
    fold (step total) in Htrace1.
    destruct (step total r st) as [[] st1|ex st1];
      simpl in Htrace1, Hurl1, Hkey1.
    + destruct (IH st1 (fun x Hx => Hincl x (or_intror Hx)))
        as (new2 & Htrace2 & Hall2 & Hurl2 & Hkey2).
      exists (new1 ++ new2).
      rewrite Htrace2, Htrace1, <- app_assoc, Hurl2, Hkey2.
      repeat split; auto.
      apply Forall_app. split; [exact Hall1|].
      now rewrite <- Hurl1, <- Hkey1.
    + exists new1. now repeat split.
Qed.

End BroadcastCalls.

(** X12. Whatever the frame, the service and the outcome, every outbound
    call a broadcast makes goes to the address of the broadcaster, with its
    key and the endpoint [send-email], without [cc] or [bcc], and is
    addressed to the email cell of a row of the frame; besides these calls
    the broadcast only pauses and prints its summary. *)
Theorem broadcast_calls_only_its_service :
  forall (env : Env) (df : DataFrame) (subject body : string)
         (html_body : option string) (from_name : string)
         (delay_seconds : Q) (batch_size : Z) (st : State),
    exists new,
      trace (final_state
               (send_bulk_email env df subject body html_body from_name
                  delay_seconds batch_size st)) = trace st ++ new
      /\ Forall (broadcast_call (api_url (self st)) (api_key (self st))
                   (rows df)) new.
Proof.
  intros. unfold send_bulk_email.
  rewrite final_state_bind. unfold set_results at 1, update_self at 1.
  rewrite final_state_bind.
  match goal with
  | |- context [for_each ?l ?f ?s] =>
      destruct (for_each_calls env subject body from_name html_body
                  delay_seconds batch_size (len df) (rows df) l s
                  (incl_refl _)) as (new & Htrace & Hall & _);
      destruct (for_each l f s) as [[] st1|ex st1]
  end; simpl in Htrace, Hall; [|exists new; now split].
  rewrite final_state_bind.
  unfold _print_summary, bind, get_self, lift, success_rate_of, emit, raise,
    ret.
  destruct (Z.of_nat (List.length (results (self st1))) =? 0); simpl.
  - exists new. now split.
  - eexists (new ++ [_]). rewrite Htrace, <- app_assoc.
    split; [reflexivity|]. apply Forall_app. split; [exact Hall|].
    constructor; [exact I|constructor].
Qed.

(** ** Saving the results *)

(** A broadcast that returns has at least one result, and returns the
    results list of the broadcaster. *)
Lemma send_bulk_email_returned (env : Env) (df : DataFrame)
    (subject body : string) (html_body : option string) (from_name : string)
    (delay_seconds : Q) (batch_size : Z) (st : State)
    (out : list SendResult) (st' : State) :
  send_bulk_email env df subject body html_body from_name delay_seconds
    batch_size st = Returned out st' ->
  results (self st') = out /\ out <> [].
Proof.
  unfold send_bulk_email.
  unfold bind at 1. unfold set_results at 1, update_self at 1.
  unfold bind at 1.
  match goal with
  | |- context [for_each ?l ?f ?s] =>
      destruct (for_each l f s) as [[] st1|ex st1]
  end; [|discriminate].
  unfold _print_summary, bind, get_self, lift, success_rate_of, emit, raise,
    ret.
  destruct (Z.of_nat (List.length (results (self st1))) =? 0) eqn:Hz;
    [discriminate|].
  simpl. intros H. injection H as <- <-. simpl. split; [reflexivity|].
  intros Hnil. rewrite Hnil in Hz. discriminate Hz.
Qed.

(** X13. After a broadcast that returns, [save_results_to_csv] never finds
    the results list empty: it hands to [to_csv] exactly the list that the
    broadcast returned, under the file name given, and an exception of
    [to_csv] leaves the method.  On a fresh broadcaster it writes nothing. *)
Theorem save_writes_what_the_broadcast_returned :
  forall (to_csv : string -> list SendResult -> option exn) (env : Env)
         (df : DataFrame) (subject body : string)
         (html_body : option string) (from_name : string)
         (delay_seconds : Q) (batch_size : Z) (st st' : State)
         (out : list SendResult) (output_file : string),
    send_bulk_email env df subject body html_body from_name delay_seconds
      batch_size st = Returned out st' ->
    save_results_to_csv to_csv (self st') output_file
    = match to_csv output_file out with
      | Some e => inl e
      | None => inr (Some (output_file, out))
      end
    /\ save_results_to_csv to_csv (init (api_url (self st)) (api_key (self st)))
         output_file = inr None.
Proof.
  intros to_csv env df subject body html_body from_name delay_seconds
    batch_size st st' out output_file H.
  destruct (send_bulk_email_returned _ _ _ _ _ _ _ _ _ _ _ H) as [Hres Hne].
  split; [|reflexivity].
  unfold save_results_to_csv. rewrite Hres.
  destruct out; [congruence | reflexivity].
Qed.

(** One recipient, a service that accepts, a disk that takes the file. *)
Lemma save_writes_what_the_broadcast_returned_witness :
  save_results_to_csv (fun _ _ => None)
    (self (final_state
             (send_bulk_email service_ok one_recipient "Halo {nama}" "Isi"
                None "Broadcast System" 1 10 fresh)))
    "broadcast_results.csv"
  = inr (Some ("broadcast_results.csv",
               [mkSendResult success (PStr "alice@example.com")
                  (PStr "Alice") (JStr "Email sent successfully")
                  (Some (JStr "msg-1")) "2025-01-01T08:00:00"]))
  /\ save_results_to_csv (fun _ _ => None)
       (init (api_url (self fresh)) (api_key (self fresh)))
       "broadcast_results.csv" = inr None.
Proof.
  exact (save_writes_what_the_broadcast_returned (fun _ _ => None) service_ok
           one_recipient "Halo {nama}" "Isi" None "Broadcast System" 1 10
           fresh _ _ "broadcast_results.csv" eq_refl).
Defined.

(** ** A name that is not text *)

Lemma for_each_app {A : Type} (f : A -> M unit) (l1 l2 : list A)
    (st : State) :
  for_each (l1 ++ l2) f st
  = match for_each l1 f st with
    | Returned _ st1 => for_each l2 f st1
    | Raised e st1 => Raised e st1
    end.
Proof.
  revert st. induction l1 as [|x l1 IH]; intros st; [reflexivity|].
  simpl. unfold bind. destruct (f x st) as [[] st1|e st1]; [apply IH|].
  reflexivity.
Qed.

Lemma bulk_body_non_text (env : Env) (total : Z) (subject body : string)
    (html_body : option string) (from_name : string) (delay_seconds : Q)
    (batch_size : Z) (r : Z * Series) (e nm : pyval) (st : State) :
  lookup "email" (snd r) = Some e ->
  lookup "nama" (snd r) = Some nm ->
  is_text nm = false ->
  exists ex,
    bulk_body env total subject body html_body from_name delay_seconds
      batch_size r st = Raised ex st
    /\ exc_kind ex = TypeError.
Proof.
  intros He Hn Hnm. unfold bulk_body, getitem. rewrite He, Hn.
  unfold bind, lift, ret, send_single_email, get_self, build_payload,
    py_replace, raise.
  destruct nm as [n| | |]; [discriminate Hnm| | |]; eexists; split;
    reflexivity.
Qed.



(** ** How a send is counted *)


(** ** The interactive run *)

(** X16. [main] sends nothing unless the health check has passed, the
    first line typed chose a source (1 or 2), the loader of that source
    has returned a frame for the file named on the second line, and the
    third line, stripped and put in lower case, is [y]. *)
Theorem main_sends_only_after_confirmation :
  forall (w : Machine) (typed : list string),
    posted (session (snd (main w typed))) <> 0%nat ->
    check_api_health (m_get w) (init API_URL API_KEY) = true
    /\ exists choice file confirm rest recipients,
         typed = choice :: file :: confirm :: rest
         /\ ((strip choice = "1"
              /\ load_recipients_from_csv (m_read_csv w) (strip file)
                 = inr recipients)
             \/ (strip choice = "2"
                 /\ load_recipients_from_excel (m_read_excel w) (strip file)
                      (PInt 0) = inr recipients))
         /\ lower (strip confirm) = "y".
Proof.
  intros w typed H. unfold main, main_body in H.
  cbn [session self boot] in H.
  destruct (check_api_health (m_get w) (init API_URL API_KEY)) eqn:Hhealth;
    [|now elim H].
  split; [reflexivity|].
  cbn [negb] in H. unfold cbind at 1, input at 1 in H. cbn [stdin] in H.
  destruct typed as [|choice typed]; [now elim H|].
  assert (Hgate : forall recipients rest,
             posted (session (snd (main_broadcast w recipients
                        (mkRun rest (boot (init API_URL API_KEY)) []))))
             <> 0%nat ->
             exists confirm rest', rest = confirm :: rest'
                                   /\ lower (strip confirm) = "y").
  { intros recipients rest Hsent. unfold main_broadcast in Hsent.
    unfold cbind at 1, input at 1 in Hsent. cbn [stdin] in Hsent.
    destruct rest as [|confirm rest']; [now elim Hsent|].
    destruct (String.eqb (lower (strip confirm)) "y") eqn:Hy;
      [|now elim Hsent].
    apply String.eqb_eq in Hy. now exists confirm, rest'. }
  destruct (String.eqb (strip choice) "1") eqn:H1.
  - apply String.eqb_eq in H1.
    unfold cbind at 1, input at 1 in H. cbn [stdin session written] in H.
    destruct typed as [|file typed]; [now elim H|].
    destruct (load_recipients_from_csv (m_read_csv w) (strip file))
      as [e|recipients] eqn:Hload; [now elim H|].
    destruct (Hgate recipients typed H) as (confirm & rest & -> & Hy).
    exists choice, file, confirm, rest, recipients.
    split; [reflexivity|]. split; [left; now split | exact Hy].
  - destruct (String.eqb (strip choice) "2") eqn:H2; [|now elim H].
    apply String.eqb_eq in H2.
    unfold cbind at 1, input at 1 in H. cbn [stdin session written] in H.
    destruct typed as [|file typed]; [now elim H|].
    destruct (load_recipients_from_excel (m_read_excel w) (strip file)
                (PInt 0)) as [e|recipients] eqn:Hload; [now elim H|].
    destruct (Hgate recipients typed H) as (confirm & rest & -> & Hy).
    exists choice, file, confirm, rest, recipients.
    split; [reflexivity|]. split; [right; now split | exact Hy].
Qed.

(** The session [typed_session] on the machine [machine_ok]. *)
Lemma main_sends_only_after_confirmation_witness :
  check_api_health (m_get machine_ok) (init API_URL API_KEY) = true
  /\ exists choice file confirm rest recipients,
       typed_session = choice :: file :: confirm :: rest
       /\ ((strip choice = "1"
            /\ load_recipients_from_csv (m_read_csv machine_ok) (strip file)
               = inr recipients)
           \/ (strip choice = "2"
               /\ load_recipients_from_excel (m_read_excel machine_ok)
                    (strip file) (PInt 0) = inr recipients))
       /\ lower (strip confirm) = "y".
Proof.
  apply (main_sends_only_after_confirmation machine_ok typed_session).
  vm_compute. discriminate.
Defined.

Lemma save_results_some (t : string -> list SendResult -> option exn)
    (b : EmailBroadcaster) (output_file : string)
    (f : string * list SendResult) :
  save_results_to_csv t b output_file = inr (Some f) ->
  f = (output_file, results b) /\ results b <> [].
Proof.
  unfold save_results_to_csv.
  destruct (results b) as [|x l]; [discriminate|].
  destruct (t output_file (x :: l)); [discriminate|].
  intros H. injection H as <-. split; [reflexivity | discriminate].
Qed.

(** Case analysis along a run, one scrutinee at a time, without looking
    into the broadcast. *)
Ltac walk :=
  repeat (cbn [stdin session written fst snd];
          match goal with
          | |- context [match ?x with _ => _ end] =>
              tryif (match x with
                     | context [match _ with _ => _ end] => idtac
                     end)
              then fail
              else destruct x eqn:?
          end);
  cbn [stdin session written fst snd].

Lemma main_broadcast_written (w : Machine) (recipients : DataFrame)
    (typed : list string) (st : State) :
  written_ok (main_broadcast w recipients (mkRun typed st [])).
Proof.
  unfold written_ok, main_broadcast, cbind, input, input_block, clift, cret,
    on_session, save_results.
  walk.
  all: try (left; reflexivity).
  all: right.
  all: match goal with
       | H : save_results_to_csv _ _ _ = inr (Some _) |- _ =>
           apply save_results_some in H; destruct H as [-> Hne]
       end.
  all: eexists; split; [reflexivity|]; split; [exact Hne | reflexivity].
Qed.

(** X17. A run of [main] writes at most one result file, and only at the
    end of a run that no exception has cut short: the file holds exactly
    the results of the broadcaster, of which there is at least one.  In
    particular nothing is written when the broadcast raises. *)
Theorem main_writes_only_complete_results :
  forall (w : Machine) (typed : list string), written_ok (main w typed).
Proof.
  intros w typed. unfold main, main_body.
  destruct (negb (check_api_health (m_get w)
                    (self (session (mkRun typed
                                      (boot (init API_URL API_KEY)) [])))));
    [left; reflexivity|].
  unfold cbind at 1, input at 1. cbn [stdin session written].
  destruct typed as [|choice typed]; [left; reflexivity|].
  destruct (String.eqb (strip choice) "1").
  - unfold cbind at 1, input at 1. cbn [stdin session written].
    destruct typed as [|file typed]; [left; reflexivity|].
    destruct (load_recipients_from_csv (m_read_csv w) (strip file));
      [left; reflexivity | apply main_broadcast_written].
  - destruct (String.eqb (strip choice) "2"); [|left; reflexivity].
    unfold cbind at 1, input at 1. cbn [stdin session written].
    destruct typed as [|file typed]; [left; reflexivity|].
    destruct (load_recipients_from_excel (m_read_excel w) (strip file)
                (PInt 0));
      [left; reflexivity | apply main_broadcast_written].
Qed.

(** ** The answers that count as yes *)

Section Answers.

Local Open Scope string_scope.

Lemma lstrip_spaces (a s : string) :
  all_chars Re.is_space a = true -> lstrip (a ++ s) = lstrip s.
Proof.
  induction a as [|c a IH]; intros H; [reflexivity|].
  simpl in H. apply andb_true_iff in H as [Hc Ha].
  simpl. rewrite Hc. now apply IH.
Qed.

Lemma lstrip_cut (s : string) :
  exists a, s = a ++ lstrip s /\ all_chars Re.is_space a = true.
Proof.
  induction s as [|c s (a & Hs & Ha)]; [now exists ""|].
  simpl. destruct (Re.is_space c) eqn:Hc.
  - exists (String c a). simpl. rewrite Hc, Ha. split; [now f_equal|].
    reflexivity.
  - now exists "".
Qed.

Lemma rstrip_spaces (b : string) :
  all_chars Re.is_space b = true -> rstrip b = "".
Proof.
  induction b as [|c b IH]; intros H; [reflexivity|].
  simpl in H. apply andb_true_iff in H as [Hc Hb].
  simpl. now rewrite (IH Hb), Hc.
Qed.

Lemma rstrip_cut (s : string) :
  exists b, s = rstrip s ++ b /\ all_chars Re.is_space b = true.
Proof.
  induction s as [|c s (b & Hs & Hb)]; [now exists ""|].
  simpl. destruct (rstrip s) as [|d t] eqn:Ht.
  - simpl in Hs. subst s. destruct (Re.is_space c) eqn:Hc.
    + exists (String c b). simpl. now rewrite Hc, Hb.
    + now exists b.
  - exists b. split; [|exact Hb]. simpl. now f_equal.
Qed.

Lemma lower_char_y (c : ascii) :
  lower_char c = "y"%char <-> c = "y"%char \/ c = "Y"%char.
Proof.
  destruct c as [[] [] [] [] [] [] [] []]; vm_compute;
    split; intros H; try discriminate H; auto;
    destruct H as [H|H]; discriminate H.
Qed.

Lemma lower_y (t : string) : lower t = "y" <-> t = "y" \/ t = "Y".
Proof.
  destruct t as [|c [|d t]]; simpl.
  - split; [discriminate | intros [H|H]; discriminate].
  - split.
    + intros H. injection H as H. apply lower_char_y in H as [->| ->]; auto.
    + intros [H|H]; injection H as ->; reflexivity.
  - split; [discriminate | intros [H|H]; discriminate].
Qed.

End Answers.

(** X18. The tests [input(...).strip().lower() == 'y'] of [main] (the
    confirmation, the HTML question, the question about saving) hold
    exactly for a line that consists of one [y] or [Y] with nothing but
    white space before and after it. *)
Theorem answer_is_yes_iff :
  forall line : string,
    lower (strip line) = "y"
    <-> exists before after,
          all_chars Re.is_space before = true
          /\ all_chars Re.is_space after = true
          /\ (line = (before ++ "y" ++ after)%string
              \/ line = (before ++ "Y" ++ after)%string).
Proof.
  intros line. split.
  - intros H. apply lower_y in H.
    destruct (lstrip_cut line) as (a & Hline & Ha).
    destruct (rstrip_cut (lstrip line)) as (b & Hl & Hb).
    fold (strip line) in Hl.
    exists a, b. split; [exact Ha|]. split; [exact Hb|].
    rewrite Hline at 1 2. rewrite Hl.
    destruct H as [-> | ->]; [left | right]; reflexivity.
  - intros (a & b & Ha & Hb & Hline).
    apply lower_y. unfold strip.
    destruct Hline as [-> | ->]; rewrite (lstrip_spaces a _ Ha); simpl;
      rewrite (rstrip_spaces b Hb); auto.
Qed.

(** ** The text typed line by line *)

Lemma read_block_acc (lines acc rest : list string) (stop : string) :
  forallb (fun l => negb (String.eqb (strip l) "END")) lines = true ->
  String.eqb (strip stop) "END" = true ->
  read_block (lines ++ stop :: rest) acc = (inr (acc ++ lines), rest).
Proof.
  revert acc. induction lines as [|l lines IH]; intros acc Hlines Hstop.
  - simpl. now rewrite Hstop, app_nil_r.
  - simpl in Hlines. apply andb_true_iff in Hlines as [Hl Hlines].
    apply negb_true_iff in Hl. simpl. rewrite Hl.
    rewrite (IH _ Hlines Hstop), <- app_assoc. reflexivity.
Qed.

(** X19. The loops of [main] that read the body and the HTML body return
    the lines typed before the first line that is [END] once stripped,
    joined by line feeds and otherwise untouched (not stripped); the [END]
    line is consumed and the lines after it are left for the next
    question.  Without an [END] line the loop ends in [EOFError]. *)
Theorem input_block_reads_up_to_end :
  forall (lines rest : list string) (stop : string) (st : State)
         (files : list (string * list SendResult)),
    forallb (fun l => negb (String.eqb (strip l) "END")) lines = true ->
    String.eqb (strip stop) "END" = true ->
    input_block (mkRun (lines ++ stop :: rest) st files)
    = (inr (PyStr.join newline lines), mkRun rest st files)
    /\ exists e,
         input_block (mkRun lines st files) = (inl e, mkRun [] st files).
Proof.
  intros lines rest stop st files Hlines Hstop. split.
  - unfold input_block. cbn [stdin session written].
    now rewrite (read_block_acc lines [] rest stop Hlines Hstop).
  - unfold input_block. cbn [stdin session written].
    assert (H : forall acc,
               read_block lines acc
               = (inl (mkExn OtherError "EOF when reading a line"), [])).
    { induction lines as [|l lines IH]; intros acc; [reflexivity|].
      simpl in Hlines. apply andb_true_iff in Hlines as [Hl Hlines].
      apply negb_true_iff in Hl. simpl. rewrite Hl. now apply IH. }
    rewrite H. eexists. reflexivity.
Qed.

(** A body of two lines, the second with leading blanks, closed by an
    [END] line with blanks around it. *)
Lemma input_block_reads_up_to_end_witness :
  input_block
    (mkRun (["Yth. {nama},"; "  terima kasih."] ++ " END " :: ["n"])
       fresh [])
  = (inr (PyStr.join newline ["Yth. {nama},"; "  terima kasih."]),
     mkRun ["n"] fresh [])
  /\ exists e,
       input_block (mkRun ["Yth. {nama},"; "  terima kasih."] fresh [])
       = (inl e, mkRun [] fresh []).
Proof.
  exact (input_block_reads_up_to_end ["Yth. {nama},"; "  terima kasih."]
           ["n"] " END " fresh [] eq_refl eq_refl).
Defined.
